(** * EduBridge tutor-booking server: the route handlers of [src/index.js]
    and of the older server file

    The server is an Express application over three MongoDB collections
    (tutors, bookings, users).  Every route handler is embedded as a
    function from the request and the state of the world to a response and
    the next state of the world.  The world is the document store together
    with a schedule that says which of the coming storage calls fail, so
    that the [try]/[catch] of every handler has something to catch.

    Conventions of the embedding:
    - a collection is a finite map from [_id] to the other fields of the
      document (the store keeps [_id] unique);
    - the text fields of a JSON request body are absent or strings, and
      [price] and [role] are any JSON scalar;
    - [toLowerCase] is computed on ASCII strings; on the other strings it
      is a parameter, as are the conversion [Number] and the falsy numbers;
    - the identifier that the driver generates for an inserted document and
      the value of [new Date()] are inputs of the handler. *)

From stdpp Require Import gmap strings list fin_maps.

(** * Identifiers *)

(** An ObjectId is 12 bytes, here the number they spell in base 256. *)
Abbreviation ObjectId := N (only parsing).

Definition hex_digit (c : Ascii.ascii) : option N :=
  let n := Ascii.N_of_ascii c in
  if (48 <=? n)%N && (n <=? 57)%N then Some (n - 48)%N
  else if (97 <=? n)%N && (n <=? 102)%N then Some (n - 87)%N
  else if (65 <=? n)%N && (n <=? 70)%N then Some (n - 55)%N
  else None.

Fixpoint hex_value (acc : N) (s : string) : N :=
  match s with
  | EmptyString => acc
  | String c s' => hex_value (16 * acc + default 0%N (hex_digit c))%N s'
  end.

(** Modelled from the spec: [ObjectId.isValid] is a function of the database
    driver, which is not under src/.  Section 6 of the spec says that an
    identifier is a 24-character hex string and that any other string is
    rejected. *)
Definition ObjectId_isValid (id : string) : bool :=
  bool_decide (String.length id = 24)
  && forallb (λ c, bool_decide (is_Some (hex_digit c)))
       (String.list_ascii_of_string id).

(** Modelled from the spec: [new ObjectId(id)], the driver's constructor,
    reads the 24 hex digits of [id] as 12 bytes.  Every handler calls it
    after [ObjectId.isValid] has accepted [id]. *)
Definition new_ObjectId (id : string) : ObjectId := hex_value 0 id.

(** * The JavaScript operators the handlers use *)

(** [!!v] for a field that is absent ([undefined]) or a string: the empty
    string is falsy. *)
Definition truthy (v : option string) : bool :=
  match v with
  | Some s => negb (String.eqb s "")
  | None => false
  end.

(** [v || d] *)
Definition or_else (v : option string) (d : string) : string :=
  match v with
  | Some s => if String.eqb s "" then d else s
  | None => d
  end.

Definition lower_ascii (c : Ascii.ascii) : Ascii.ascii :=
  let n := Ascii.N_of_ascii c in
  if (65 <=? n)%N && (n <=? 90)%N then Ascii.ascii_of_N (n + 32) else c.

(** [s.toLowerCase()] for a string [s] of ASCII characters: only the
    letters A to Z change. *)
Fixpoint ascii_toLowerCase (s : string) : string :=
  match s with
  | EmptyString => EmptyString
  | String c s' => String (lower_ascii c) (ascii_toLowerCase s')
  end.

(** Whether every character of the string is an ASCII character *)
Definition is_ascii (s : string) : bool :=
  forallb (λ c, (Ascii.N_of_ascii c <? 128)%N) (String.list_ascii_of_string s).

(** * Results of storage calls *)

(** What the [try] of a handler can catch: the two failures of a storage
    call, and the TypeError of calling a method that the value does not
    have. *)
Inductive StoreError := NetworkError | DuplicateKey | TypeError.

Inductive result (A : Type) :=
| Ok (a : A)
| Throw (e : StoreError).
Arguments Ok {A} a.
Arguments Throw {A} e.

Record UpdateResult := { matchedCount : nat; modifiedCount : nat }.
Record DeleteResult := { deletedCount : nat }.

(** Query filters: [{ _id: oid }] and [{ field: value }]. *)
Inductive Filter (D : Type) :=
| by_id (oid : ObjectId)
| by_field (p : D → bool).
Arguments by_id {D} oid.
Arguments by_field {D} p.

(** Update operators: what they do to a document, and whether that changes
    it (the store counts a document as modified when it changed). *)
Record Update (D : Type) := {
  apply_update : D → D;
  changes : D → bool
}.
Arguments apply_update {D} u d.
Arguments changes {D} u d.

Section Server.

(** ECMAScript numbers are a parameter of the development, and so is the
    built-in conversion to them. *)
Context {JSNumber : Type}.

Inductive JSValue :=
| JNull
| JBool (b : bool)
| JNum (n : JSNumber)
| JStr (s : string).

(** [Number(v)], for a field [v] that may be absent ([undefined]) *)
Variable Number : option JSValue → JSNumber.

(** Two more built-ins of the runtime are parameters: which numbers are
    falsy (the zeros and NaN), and [String.prototype.toLowerCase] on the
    strings that have a character outside ASCII. *)
Class Builtins := {
  falsy_number : JSNumber → bool;
  unicode_toLowerCase : string → string
}.

Context {builtins : Builtins}.

(** [!!v] for a field that is absent or a JSON scalar *)
Definition truthy_value (v : option JSValue) : bool :=
  match v with
  | None | Some JNull => false
  | Some (JBool b) => b
  | Some (JNum n) => negb (falsy_number n)
  | Some (JStr s) => negb (String.eqb s "")
  end.

(** [v || d] for such a field *)
Definition or_value (v : option JSValue) (d : JSValue) : JSValue :=
  if truthy_value v then default d v else d.

(** [s.toLowerCase()] *)
Definition toLowerCase (s : string) : string :=
  if is_ascii s then ascii_toLowerCase s else unicode_toLowerCase s.

(** [v == null] for a field that may be absent *)
Definition is_nullish (v : option JSValue) : bool :=
  match v with
  | None | Some JNull => true
  | Some _ => false
  end.

(** * Documents *)

Record Tutor := {
  tutorName : string;
  language : string;
  price : JSNumber;
  description : string;
  image : string;
  review : Z;
  tutor_createdAt : Z
}.

Record Booking := {
  tutorId : ObjectId;
  userEmail : string;
  bookedAt : string;
  reviewed : bool;
  booking_createdAt : Z
}.

Record User := {
  name : string;
  email : string;
  role : string;
  user_createdAt : Z
}.

(** * The store *)

Record Store := {
  tutors : gmap ObjectId Tutor;
  bookings : gmap ObjectId Booking;
  users : gmap ObjectId User;
  (** whether [createIndex({ email: 1 }, { unique: true })] took effect *)
  users_email_unique : bool
}.

(** The world: the store, and for each of the coming storage calls whether
    it fails ([true]); past the end of the schedule every call succeeds. *)
Record World := { store : Store; faults : list bool }.

(** A collection handle: how to read and replace its documents, and what
    its unique indexes (other than the one on [_id]) admit. *)
Record Collection (D : Type) := {
  docs : Store → gmap ObjectId D;
  with_docs : Store → gmap ObjectId D → Store;
  admits : Store → D → bool
}.
Arguments docs {D} c s.
Arguments with_docs {D} c s m.
Arguments admits {D} c s d.

Definition tutorCollection : Collection Tutor := {|
  docs := tutors;
  with_docs s m := {| tutors := m; bookings := bookings s; users := users s;
                      users_email_unique := users_email_unique s |};
  admits _ _ := true
|}.

Definition bookingCollection : Collection Booking := {|
  docs := bookings;
  with_docs s m := {| tutors := tutors s; bookings := m; users := users s;
                      users_email_unique := users_email_unique s |};
  admits _ _ := true
|}.

(** The documents of a map that satisfy a field filter, with their ids. *)
Definition scan {D} (p : D → bool) (m : gmap ObjectId D) : list (ObjectId * D) :=
  filter (λ kd, p kd.2 = true) (map_to_list m).

Definition has_email (e : string) (u : User) : bool := String.eqb (email u) e.

Definition userCollection : Collection User := {|
  docs := users;
  with_docs s m := {| tutors := tutors s; bookings := bookings s; users := m;
                      users_email_unique := users_email_unique s |};
  admits s u :=
    negb (users_email_unique s)
    || bool_decide (scan (has_email (email u)) (users s) = [])
|}.

(** * Storage calls *)

Definition M (A : Type) : Type := World → result A * World.

#[local] Instance M_ret : MRet M := λ A a w, (Ok a, w).

#[local] Instance M_bind : MBind M := λ A B f m w,
  match m w with
  | (Ok a, w') => f a w'
  | (Throw e, w') => (Throw e, w')
  end.

(** One round trip to the database.  A call that fails leaves the store as
    it was. *)
Definition call {A} (op : Store → result A * Store) : M A := λ w,
  match faults w with
  | true :: fs => (Throw NetworkError, {| store := store w; faults := fs |})
  | _ =>
      let '(r, s) := op (store w) in
      (r, {| store := s; faults := tail (faults w) |})
  end.

Definition findOne {D} (c : Collection D) (q : Filter D) : M (option (ObjectId * D)) :=
  call (λ s,
    (Ok match q with
        | by_id oid => (λ d, (oid, d)) <$> docs c s !! oid
        | by_field p => head (scan p (docs c s))
        end, s)).

Definition insertOne {D} (c : Collection D) (oid : ObjectId) (d : D) : M ObjectId :=
  call (λ s,
    match docs c s !! oid with
    | Some _ => (Throw DuplicateKey, s)
    | None =>
        if admits c s d
        then (Ok oid, with_docs c s (<[oid := d]> (docs c s)))
        else (Throw DuplicateKey, s)
    end).

Definition updateOne {D} (c : Collection D) (oid : ObjectId) (u : Update D) : M UpdateResult :=
  call (λ s,
    match docs c s !! oid with
    | None => (Ok {| matchedCount := 0; modifiedCount := 0 |}, s)
    | Some d =>
        (Ok {| matchedCount := 1;
               modifiedCount := if changes u d then 1 else 0 |},
         with_docs c s (<[oid := apply_update u d]> (docs c s)))
    end).

Definition deleteOne {D} (c : Collection D) (oid : ObjectId) : M DeleteResult :=
  call (λ s,
    match docs c s !! oid with
    | None => (Ok {| deletedCount := 0 |}, s)
    | Some _ =>
        (Ok {| deletedCount := 1 |}, with_docs c s (delete oid (docs c s)))
    end).

(** [{ $set: { reviewed: true } }] *)
Definition set_reviewed_true : Update Booking := {|
  apply_update b := {| tutorId := tutorId b; userEmail := userEmail b;
                       bookedAt := bookedAt b; reviewed := true;
                       booking_createdAt := booking_createdAt b |};
  changes b := negb (reviewed b)
|}.

(** [{ $inc: { review: 1 } }] *)
Definition inc_review_1 : Update Tutor := {|
  apply_update t := {| tutorName := tutorName t; language := language t;
                       price := price t; description := description t;
                       image := image t; review := review t + 1;
                       tutor_createdAt := tutor_createdAt t |};
  changes _ := true
|}.

(** [{ $set: { role: r } }] *)
Definition set_role (r : string) : Update User := {|
  apply_update u := {| name := name u; email := email u; role := r;
                       user_createdAt := user_createdAt u |};
  changes u := negb (String.eqb (role u) r)
|}.

(** * The aggregation of [GET /bookings/:email] *)

(** A row of the result: the projected booking fields and the four fields
    taken from the joined tutor. *)
Record BookingRow := {
  row_id : ObjectId;
  row_tutorId : ObjectId;
  row_userEmail : string;
  row_bookedAt : string;
  row_reviewed : bool;
  row_tutorName : string;
  row_language : string;
  row_price : JSNumber;
  row_image : string
}.

(** [{ $match: { userEmail: email } }] *)
Definition stage_match (e : string) (m : gmap ObjectId Booking) : list (ObjectId * Booking) :=
  scan (λ b, String.eqb (userEmail b) e) m.

(** [{ $lookup: { from: "tutors", localField: "tutorId", foreignField: "_id",
    as: "tutor" } }]: the array of the tutors whose [_id] is the booking's
    [tutorId]. *)
Definition stage_lookup (ts : gmap ObjectId Tutor) (l : list (ObjectId * Booking))
  : list (ObjectId * Booking * list Tutor) :=
  (λ kb, (kb, option_list (ts !! tutorId kb.2))) <$> l.

(** [{ $unwind: "$tutor" }]: one document per element of the array, none
    when the array is empty. *)
Definition stage_unwind (l : list (ObjectId * Booking * list Tutor))
  : list (ObjectId * Booking * Tutor) :=
  x ← l; (λ t, (x.1, t)) <$> x.2.

(** [{ $project: { ... } }] *)
Definition project (x : ObjectId * Booking * Tutor) : BookingRow :=
  let '(oid, b, t) := x in
  {| row_id := oid; row_tutorId := tutorId b; row_userEmail := userEmail b;
     row_bookedAt := bookedAt b; row_reviewed := reviewed b;
     row_tutorName := tutorName t; row_language := language t;
     row_price := price t; row_image := image t |}.

Definition aggregate_bookings (e : string) : M (list BookingRow) :=
  call (λ s,
    (Ok (project <$> stage_unwind (stage_lookup (tutors s) (stage_match e (bookings s)))),
     s)).

(** * Requests and responses *)

Record TutorBody := {
  body_tutorName : option string;
  body_language : option string;
  body_price : option JSValue;
  body_description : option string;
  body_image : option string
}.

Record BookingBody := {
  body_tutorId : option string;
  body_userEmail : option string;
  body_date : option string
}.

(** [role] is any JSON scalar: the handlers call a string method on it. *)
Record UserBody := {
  body_name : option string;
  body_email : option string;
  body_role : option JSValue
}.

Inductive Body :=
| Failure_error (error : string)         (* { success: false, error } *)
| Failure_message (message : string)     (* { success: false, message } *)
| Success_message (message : string)     (* { success: true, message } *)
| Success_inserted (message : string) (insertedId : ObjectId)
| Success_deleted (deletedCount : nat)   (* { success: true, deletedCount } *)
| Success_modified (modifiedCount : nat) (* { success: true, modifiedCount } *)
| Send_tutor (_id : ObjectId) (t : Tutor)
| Send_bookings (rows : list BookingRow).

Record Response := { status : nat; body : Body }.

(** [res.status(n).send(b)], and [res.send(b)], which answers 200 *)
Definition res_status_send (n : nat) (b : Body) : Response :=
  {| status := n; body := b |}.
Definition res_send (b : Body) : Response := res_status_send 200 b.

Definition Handler : Type := World → Response * World.

(** [try { m } catch (error) { res.status(500).send(b) }] *)
Definition try_catch (m : M Response) (b : Body) : Handler := λ w,
  match m w with
  | (Ok r, w') => (r, w')
  | (Throw _, w') => (res_status_send 500 b, w')
  end.

(** [v.toLowerCase()]: a TypeError unless [v] is a string *)
Definition method_toLowerCase (v : JSValue) : result string :=
  match v with
  | JStr s => Ok (toLowerCase s)
  | _ => Throw TypeError
  end.

(** A step of a handler that makes no storage call: its value, or the
    error it throws *)
Definition evaluate {A} (r : result A) : M A := λ w, (r, w).

(** A handler that answers before any storage call *)
Definition respond (r : Response) : Handler := λ w, (r, w).

(** * Tutor routes *)

(** [app.post('/tutors')]; [oid] is the identifier the driver generates for
    the new document and [now] the value of [new Date()]. *)
Definition post_tutors (b : TutorBody) (oid : ObjectId) (now : Z) : Handler :=
  try_catch
    (if negb (truthy (body_tutorName b)) || negb (truthy (body_language b))
        || is_nullish (body_price b)
     then mret (res_status_send 400 (Failure_error "Missing required fields"))
     else
       let newTutor := {|
         tutorName := default "" (body_tutorName b);
         language := default "" (body_language b);
         price := Number (body_price b);
         description := or_else (body_description b) "";
         image := or_else (body_image b) "";
         review := 0;
         tutor_createdAt := now
       |} in
       result ← insertOne tutorCollection oid newTutor;
       mret (res_status_send 201 (Success_inserted "Tutor added" result)))
    (Failure_error "Failed to add tutor").

(** [app.get('/tutors/:id')] *)
Definition get_tutor (id : string) : Handler :=
  if negb (ObjectId_isValid id)
  then respond (res_status_send 400 (Failure_error "Invalid ID format"))
  else
    try_catch
      (tutor ← findOne tutorCollection (by_id (new_ObjectId id));
       match tutor with
       | None => mret (res_status_send 404 (Failure_error "Tutor not found"))
       | Some (oid, t) => mret (res_send (Send_tutor oid t))
       end)
      (Failure_error "Failed to fetch tutor").

(** [app.delete('/tutors/:id')] *)
Definition delete_tutor (id : string) : Handler :=
  if negb (ObjectId_isValid id)
  then respond (res_status_send 400 (Failure_error "Invalid ID format"))
  else
    try_catch
      (result ← deleteOne tutorCollection (new_ObjectId id);
       mret (res_send (Success_deleted (deletedCount result))))
      (Failure_error "Failed to delete tutor").

(** [app.delete('/tutors/:id')] as the older server file
    (src/unnamed/part_000) has it. *)
Definition delete_tutor_part_000 (id : string) : Handler :=
  if negb (ObjectId_isValid id)
  then respond (res_status_send 400 (Failure_error "Invalid ID format"))
  else
    try_catch
      (result ← deleteOne tutorCollection (new_ObjectId id);
       if Nat.eqb (deletedCount result) 0
       then mret (res_status_send 404 (Failure_message "Tutor not found"))
       else mret (res_send (Success_message "Tutor deleted")))
      (Failure_error "Failed to delete tutor").

(** * Booking routes *)

(** [app.post('/bookings')] *)
Definition post_bookings (b : BookingBody) (oid : ObjectId) (now : Z) : Handler :=
  try_catch
    (if negb (truthy (body_tutorId b)) || negb (truthy (body_userEmail b))
        || negb (truthy (body_date b))
     then mret (res_status_send 400 (Failure_error "Missing required fields"))
     else if negb (ObjectId_isValid (default "" (body_tutorId b)))
     then mret (res_status_send 400 (Failure_error "Invalid tutorId"))
     else
       let booking := {|
         tutorId := new_ObjectId (default "" (body_tutorId b));
         userEmail := default "" (body_userEmail b);
         bookedAt := default "" (body_date b);
         reviewed := false;
         booking_createdAt := now
       |} in
       result ← insertOne bookingCollection oid booking;
       mret (res_status_send 201 (Success_inserted "Booking successful" result)))
    (Failure_error "Failed to book tutor").

(** [app.get('/bookings/:email')] *)
Definition get_bookings (e : string) : Handler :=
  try_catch
    (bookings ← aggregate_bookings e;
     mret (res_send (Send_bookings bookings)))
    (Failure_error "Failed to fetch bookings").

(** [app.patch('/bookings/reviewed/:id')] *)
Definition patch_booking_reviewed (id : string) : Handler :=
  if negb (ObjectId_isValid id)
  then respond (res_status_send 400 (Failure_error "Invalid ID format"))
  else
    try_catch
      (booking ← findOne bookingCollection (by_id (new_ObjectId id));
       match booking with
       | None => mret (res_status_send 404 (Failure_message "Booking not found"))
       | Some (_, booking) =>
           if reviewed booking
           then mret (res_status_send 400 (Failure_message "Already reviewed"))
           else
             updateOne bookingCollection (new_ObjectId id) set_reviewed_true;;
             updateOne tutorCollection (tutorId booking) inc_review_1;;
             mret (res_send (Success_message "Booking reviewed & tutor rating updated"))
       end)
      (Failure_error "Failed to update review").

(** * User routes *)

(** [app.post('/users')] *)
Definition post_users (b : UserBody) (oid : ObjectId) (now : Z) : Handler :=
  try_catch
    (if negb (truthy (body_name b)) || negb (truthy (body_email b))
     then mret (res_status_send 400 (Failure_error "Name and email are required"))
     else
       existing ← findOne userCollection
                    (by_field (has_email (default "" (body_email b))));
       match existing with
       | Some _ => mret (res_status_send 409 (Failure_message "User already exists"))
       | None =>
           role ← evaluate (method_toLowerCase
                              (or_value (body_role b) (JStr "user")));
           result ← insertOne userCollection oid {|
             name := default "" (body_name b);
             email := default "" (body_email b);
             role := role;
             user_createdAt := now
           |};
           mret (res_status_send 201 (Success_inserted "User registered" result))
       end)
    (Failure_error "Failed to add user").

(** [app.patch('/users/:id')]; the handler reads [role] from the body. *)
Definition patch_user (id : string) (body_role : option JSValue) : Handler :=
  try_catch
    (if negb (ObjectId_isValid id)
     then mret (res_status_send 400 (Failure_error "Invalid ID format"))
     else if negb (truthy_value body_role)
     then mret (res_status_send 400 (Failure_error "Role is required"))
     else
       role ← evaluate (method_toLowerCase (default JNull body_role));
       result ← updateOne userCollection (new_ObjectId id) (set_role role);
       mret (res_send (Success_modified (modifiedCount result))))
    (Failure_error "Failed to update role").

(** * The other routes of [src/index.js] *)

(** [find().toArray()]: every document of the collection, with its id *)
Definition find_toArray {D} (c : Collection D) : M (list (ObjectId * D)) :=
  call (λ s, (Ok (map_to_list (docs c s)), s)).

(** [countDocuments()] and [countDocuments({ field: value })] *)
Definition countDocuments {D} (c : Collection D) (q : option (D → bool)) : M nat :=
  call (λ s,
    (Ok match q with
        | None => size (docs c s)
        | Some p => length (scan p (docs c s))
        end, s)).

(** [db.command({ ping: 1 })] *)
Definition db_command_ping : M unit := call (λ s, (Ok tt, s)).

(** [Promise.all([a, b, c, d])]: the four calls are all issued, in this
    order; the result is their four values, or a failure when one of them
    failed. *)
Definition Promise_all4 {A B C D} (a : M A) (b : M B) (c : M C) (d : M D)
  : M (A * B * C * D) := λ w,
  let '(ra, w1) := a w in
  let '(rb, w2) := b w1 in
  let '(rc, w3) := c w2 in
  let '(rd, w4) := d w3 in
  (match ra, rb, rc, rd with
   | Ok x, Ok y, Ok z, Ok u => Ok (x, y, z, u)
   | Throw e, _, _, _ => Throw e
   | _, Throw e, _, _ => Throw e
   | _, _, Throw e, _ => Throw e
   | _, _, _, Throw e => Throw e
   end, w4).

(** [{ totalTutors, totalBookings, totalUsers, pendingReviews }] *)
Record Stats := {
  totalTutors : nat;
  totalBookings : nat;
  totalUsers : nat;
  pendingReviews : nat
}.

(** What the listing routes send: one of the bodies above, a list of
    documents, one user, the dashboard counters or [{ ok }]. *)
Inductive Payload :=
| Plain (b : Body)
| Tutor_list (l : list (ObjectId * Tutor))
| User_list (l : list (ObjectId * User))
| User_doc (_id : ObjectId) (u : User)
| Stats_doc (st : Stats)
| Health_doc (ok : bool).

Record Reply := { reply_status : nat; reply_body : Payload }.

Definition reply_status_send (n : nat) (b : Payload) : Reply :=
  {| reply_status := n; reply_body := b |}.
Definition reply_send (b : Payload) : Reply := reply_status_send 200 b.

(** [try { m } catch { r }] for these routes *)
Definition try_catch_reply (m : M Reply) (r : Reply) : World → Reply * World := λ w,
  match m w with
  | (Ok x, w') => (x, w')
  | (Throw _, w') => (r, w')
  end.

(** [app.get('/tutors')] *)
Definition get_tutors : World → Reply * World :=
  try_catch_reply
    (tutors ← find_toArray tutorCollection;
     mret (reply_send (Tutor_list tutors)))
    (reply_status_send 500 (Plain (Failure_error "Failed to fetch tutors"))).

(** [app.get('/users')] *)
Definition get_users : World → Reply * World :=
  try_catch_reply
    (users ← find_toArray userCollection;
     mret (reply_send (User_list users)))
    (reply_status_send 500 (Plain (Failure_error "Failed to fetch users"))).

(** [app.get('/users/:email')] *)
Definition get_user_by_email (e : string) : World → Reply * World :=
  try_catch_reply
    (user ← findOne userCollection (by_field (has_email e));
     match user with
     | None =>
         mret (reply_status_send 404 (Plain (Failure_error "User not found")))
     | Some (oid, u) => mret (reply_send (User_doc oid u))
     end)
    (reply_status_send 500 (Plain (Failure_error "Failed to fetch user"))).

(** [app.delete('/users/:id')] *)
Definition delete_user (id : string) : Handler :=
  try_catch
    (if negb (ObjectId_isValid id)
     then mret (res_status_send 400 (Failure_error "Invalid ID format"))
     else
       result ← deleteOne userCollection (new_ObjectId id);
       mret (res_send (Success_deleted (deletedCount result))))
    (Failure_error "Failed to delete user").

(** [app.get('/dashboard/stats')] *)
Definition dashboard_stats : World → Reply * World :=
  try_catch_reply
    ('(totalTutors, totalBookings, totalUsers, pendingReviews) ←
       Promise_all4
         (countDocuments tutorCollection None)
         (countDocuments bookingCollection None)
         (countDocuments userCollection None)
         (countDocuments bookingCollection (Some (λ b, negb (reviewed b))));
     mret (reply_send (Stats_doc {|
       totalTutors := totalTutors; totalBookings := totalBookings;
       totalUsers := totalUsers; pendingReviews := pendingReviews |})))
    (reply_status_send 500
       (Plain (Failure_error "Failed to fetch dashboard stats"))).

(** [app.get('/health')] *)
Definition health : World → Reply * World :=
  try_catch_reply
    (db_command_ping;; mret (reply_send (Health_doc true)))
    (reply_status_send 500 (Health_doc false)).

(** * Routes of the older server file (src/unnamed/part_000) *)

(** [app.patch('/tutors/review/:id')] *)
Definition patch_tutor_review_part_000 (id : string) : Handler :=
  if negb (ObjectId_isValid id)
  then respond (res_status_send 400 (Failure_error "Invalid ID format"))
  else
    try_catch
      (result ← updateOne tutorCollection (new_ObjectId id) inc_review_1;
       if Nat.eqb (matchedCount result) 0
       then mret (res_status_send 404 (Failure_message "Tutor not found"))
       else mret (res_send (Success_message "Review count updated")))
      (Failure_error "Failed to update review").

(** [app.patch('/bookings/reviewed/:id')] *)
Definition patch_booking_reviewed_part_000 (id : string) : Handler :=
  if negb (ObjectId_isValid id)
  then respond (res_status_send 400 (Failure_error "Invalid ID format"))
  else
    try_catch
      (result ← updateOne bookingCollection (new_ObjectId id) set_reviewed_true;
       if Nat.eqb (matchedCount result) 0
       then mret (res_status_send 404 (Failure_message "Booking not found"))
       else mret (res_send (Success_message "Booking marked as reviewed")))
      (Failure_error "Failed to update booking review status").

(** [app.delete('/bookings/:id')] *)
Definition delete_booking_part_000 (id : string) : Handler :=
  if negb (ObjectId_isValid id)
  then respond (res_status_send 400 (Failure_error "Invalid ID format"))
  else
    try_catch
      (result ← deleteOne bookingCollection (new_ObjectId id);
       if Nat.eqb (deletedCount result) 0
       then mret (res_status_send 404 (Failure_message "Booking not found"))
       else mret (res_send (Success_message "Booking deleted")))
      (Failure_error "Failed to delete booking").

End Server.

Arguments docs {JSNumber D} c s.
Arguments with_docs {JSNumber D} c s m.
Arguments admits {JSNumber D} c s d.
Arguments JSValue : clear implicits.
Arguments Builtins : clear implicits.
Arguments UserBody : clear implicits.
Arguments Tutor : clear implicits.
Arguments Store : clear implicits.
Arguments World : clear implicits.
Arguments BookingRow : clear implicits.
Arguments TutorBody : clear implicits.
Arguments Body : clear implicits.
Arguments Response : clear implicits.
Arguments Handler : clear implicits.
Arguments M : clear implicits.
Arguments Payload : clear implicits.
Arguments Reply : clear implicits.

(** * The words of the specification *)

(** A text field is present when it was sent and is not the empty string
    (what the handlers' [!field] tests reject). *)
Definition present (v : option string) : Prop := ∃ s, v = Some s ∧ s ≠ "".

(** A role that has the method [toLowerCase] once the default is in place:
    one that is absent or falsy, or a string. *)
Definition lowerable {JSNumber} `{!Builtins JSNumber}
    (v : option (JSValue JSNumber)) : Prop :=
  truthy_value v = false ∨ ∃ x, v = Some (JStr x).

(** A price is non-null when it was sent and is not [null]. *)
Definition non_null {JSNumber} (v : option (JSValue JSNumber)) : Prop :=
  ∃ x, v = Some x ∧ x ≠ JNull.

Definition is_hex_char (c : Ascii.ascii) : Prop :=
  let n := Ascii.N_of_ascii c in
  (48 ≤ n ≤ 57 ∨ 97 ≤ n ≤ 102 ∨ 65 ≤ n ≤ 70)%N.

(** A 24-character hexadecimal string *)
Definition hex24 (id : string) : Prop :=
  String.length id = 24 ∧ Forall is_hex_char (String.list_ascii_of_string id).

(** There is exactly one user record with email [e]. *)
Definition one_user_with_email {JSNumber} (e : string) (s : Store JSNumber) : Prop :=
  ∃ oid u, users s !! oid = Some u ∧ email u = e
    ∧ ∀ oid' u', users s !! oid' = Some u' → email u' = e → oid' = oid.

(** The store after both writes of the review workflow on booking [b],
    stored under [oid] *)
Definition reviewed_store {JSNumber} (s : Store JSNumber) (oid : ObjectId)
    (b : Booking) : Store JSNumber := {|
  tutors := match tutors s !! tutorId b with
            | Some t => <[tutorId b := apply_update inc_review_1 t]> (tutors s)
            | None => tutors s
            end;
  bookings := <[oid := apply_update set_reviewed_true b]> (bookings s);
  users := users s;
  users_email_unique := users_email_unique s
|}.

(** * Invariants and counters of a store *)

(** No two user records have the same email. *)
Definition emails_unique {JSNumber} (s : Store JSNumber) : Prop :=
  ∀ oid1 oid2 u1 u2,
    users s !! oid1 = Some u1 → users s !! oid2 = Some u2 →
    email u1 = email u2 → oid1 = oid2.

(** Every stored role is what [toLowerCase] made of some string. *)
Definition roles_lowercase {JSNumber} `{!Builtins JSNumber}
    (s : Store JSNumber) : Prop :=
  ∀ oid u, users s !! oid = Some u → ∃ x, role u = toLowerCase x.

(** The bookings that are not reviewed yet *)
Definition pending {JSNumber} (s : Store JSNumber) : gmap ObjectId Booking :=
  filter (λ kb, reviewed kb.2 = false) (bookings s).

(** * Sample data *)

Module Sample.

(** An instance of the number parameters for the examples: numbers are
    integers, a number converts to itself, [true] to 1 and anything else
    to 0. *)
Definition to_number (v : option (JSValue Z)) : Z :=
  match v with
  | Some (JNum n) => n
  | Some (JBool true) => 1
  | _ => 0
  end.

(** The other built-ins for the examples: 0 is the falsy number; the
    examples only lower ASCII strings, and the identity stands in for the
    lowering of the others. *)
#[global] Instance builtins : Builtins Z := {|
  falsy_number n := Z.eqb n 0;
  unicode_toLowerCase x := x
|}.

Definition ana_id : string := "507f1f77bcf86cd799439011".
Definition ana_id_upper : string := "507F1F77BCF86CD799439011".
Definition ben_id : string := "507f1f77bcf86cd799439012".
Definition booking1_id : string := "65a000000000000000000001".
Definition booking2_id : string := "65a000000000000000000002".
Definition user1_id : string := "66b000000000000000000001".

Definition ana : Tutor Z := {|
  tutorName := "Ana"; language := "Spanish"; price := 20%Z;
  description := ""; image := "ana.png"; review := 3;
  tutor_createdAt := 1700000000000
|}.

(** A booking of Ana, not yet reviewed *)
Definition booking1 : Booking := {|
  tutorId := new_ObjectId ana_id; userEmail := "kim@example.com";
  bookedAt := "2025-03-01"; reviewed := false;
  booking_createdAt := 1700000001000
|}.

(** A booking of a tutor who is not in the store *)
Definition booking2 : Booking := {|
  tutorId := new_ObjectId ben_id; userEmail := "kim@example.com";
  bookedAt := "2025-03-02"; reviewed := false;
  booking_createdAt := 1700000002000
|}.

Definition kim : User := {|
  name := "Kim"; email := "kim@example.com"; role := "user";
  user_createdAt := 1700000000500
|}.

Definition store0 : Store Z := {|
  tutors := {[ new_ObjectId ana_id := ana ]};
  bookings := {[ new_ObjectId booking1_id := booking1;
                 new_ObjectId booking2_id := booking2 ]};
  users := {[ new_ObjectId user1_id := kim ]};
  users_email_unique := true
|}.

Definition world0 : World Z := {| store := store0; faults := [] |}.

(** The same store, when the third storage call from now fails *)
Definition world_third_call_fails : World Z :=
  {| store := store0; faults := [false; false; true] |}.

Definition tutor_body : TutorBody Z := {|
  body_tutorName := Some "Ben"; body_language := Some "German";
  body_price := Some (JNum 25%Z); body_description := None;
  body_image := None
|}.

Definition user_body : UserBody Z := {|
  body_name := Some "Lee"; body_email := Some "lee@example.com";
  body_role := Some (JStr "Admin")
|}.

(** The same registration with a role that is not a string *)
Definition user_body_role_true : UserBody Z := {|
  body_name := Some "Lee"; body_email := Some "lee@example.com";
  body_role := Some (JBool true)
|}.

(** A world whose next storage call fails *)
Definition world_first_call_fails : World Z :=
  {| store := store0; faults := [true] |}.

Definition new_booking_id : string := "65a000000000000000000003".

(** A booking request for Ana, and one for a tutor who is not in the store *)
Definition booking_body : BookingBody := {|
  body_tutorId := Some ana_id; body_userEmail := Some "lee@example.com";
  body_date := Some "2025-04-01"
|}.

Definition booking_body_ben : BookingBody := {|
  body_tutorId := Some ben_id; body_userEmail := Some "lee@example.com";
  body_date := Some "2025-04-01"
|}.

(** A registration with the email of Kim *)
Definition kim_again : UserBody Z := {|
  body_name := Some "Kim K"; body_email := Some "kim@example.com";
  body_role := None
|}.

End Sample.

(** * Properties *)

Section Properties.

Context {JSNumber : Type} `{!Builtins JSNumber}.
Implicit Types (w : World JSNumber) (s : Store JSNumber).
Implicit Types (id e : string) (oid : N).

(** ** Presence and identifier syntax *)

Lemma truthy_present (v : option string) : truthy v = true ↔ present v.
Proof.
  unfold present. destruct v as [x|]; simpl.
  - destruct (String.eqb_spec x "") as [->|Hx]; simpl; split.
    + discriminate.
    + by intros (y & [= <-] & Hy).
    + eauto.
    + done.
  - split; [discriminate | by intros (y & [=] & _)].
Qed.

Lemma truthy_absent (v : option string) : truthy v = false ↔ ¬ present v.
Proof.
  rewrite <- truthy_present. destruct (truthy v); split; done.
Qed.

Lemma present_default (v : option string) :
  present v → v = Some (default "" v) ∧ default "" v ≠ "".
Proof. by intros (x & -> & Hx). Qed.

Lemma is_nullish_non_null (v : option (JSValue JSNumber)) :
  is_nullish v = false ↔ non_null v.
Proof.
  unfold non_null. destruct v as [[]|]; simpl; split; try done; eauto;
    try (by intros (x & [= <-] & Hx)); try (by intros (x & [=] & _)).
Qed.

Lemma hex_digit_is_hex_char (c : Ascii.ascii) :
  is_Some (hex_digit c) ↔ is_hex_char c.
Proof.
  unfold hex_digit, is_hex_char. cbv zeta.
  generalize (Ascii.N_of_ascii c); intros n.
  destruct (N.leb_spec 48 n), (N.leb_spec n 57), (N.leb_spec 97 n),
    (N.leb_spec n 102), (N.leb_spec 65 n), (N.leb_spec n 70); simpl;
    (split; [intros [x Hx]; try discriminate; lia
            | intros Hn; try (by eexists); lia]).
Qed.

Lemma ObjectId_isValid_hex24 id : ObjectId_isValid id = true ↔ hex24 id.
Proof.
  unfold ObjectId_isValid, hex24.
  rewrite andb_true_iff, bool_decide_eq_true, forallb_forall, List.Forall_forall.
  apply and_iff_compat_l. apply forall_proper; intros c.
  by rewrite bool_decide_eq_true, hex_digit_is_hex_char.
Qed.

Lemma ObjectId_isValid_not_hex24 id : ObjectId_isValid id = false ↔ ¬ hex24 id.
Proof.
  rewrite <- ObjectId_isValid_hex24. by destruct (ObjectId_isValid id).
Qed.


(** ** Running storage calls *)

Lemma call_no_fault {A} (op : Store JSNumber → result A * Store JSNumber) s :
  call op {| store := s; faults := [] |}
  = ((op s).1, {| store := (op s).2; faults := [] |}).
Proof. unfold call; simpl. by destruct (op s). Qed.

Lemma call_scheduled_ok {A} (op : Store JSNumber → result A * Store JSNumber) s fs :
  call op {| store := s; faults := false :: fs |}
  = ((op s).1, {| store := (op s).2; faults := fs |}).
Proof. unfold call; simpl. by destruct (op s). Qed.

Lemma call_scheduled_fault {A} (op : Store JSNumber → result A * Store JSNumber) s fs :
  call op {| store := s; faults := true :: fs |}
  = (Throw NetworkError, {| store := s; faults := fs |}).
Proof. done. Qed.

Ltac run_calls :=
  repeat (unfold try_catch, respond, mbind, M_bind, mret, M_ret, findOne,
            updateOne, deleteOne, insertOne, aggregate_bookings, evaluate;
          rewrite ?call_no_fault, ?call_scheduled_ok, ?call_scheduled_fault;
          simpl).

Ltac no_faults w :=
  let s := fresh "s" in let fs := fresh "fs" in
  destruct w as [s fs]; simpl in *; subst fs.

(** ** GET /tutors/:id *)

(** C2: an id that is not a 24-character hex string is answered 400, whatever
    the store does; a well-formed id that no tutor has is answered 404, and
    one that a tutor has is answered 200 with the stored record. *)
Theorem get_tutor_status w id :
  let r := (get_tutor id w).1 in
  (¬ hex24 id → status r = 400)
  ∧ (hex24 id → faults w = [] →
     match tutors (store w) !! new_ObjectId id with
     | None => status r = 404
     | Some t => status r = 200 ∧ body r = Send_tutor (new_ObjectId id) t
     end).
Proof.
  unfold get_tutor. split.
  - intros Hid%ObjectId_isValid_not_hex24. by rewrite Hid.
  - intros Hid%ObjectId_isValid_hex24 Hw. rewrite Hid. no_faults w.
    run_calls. by destruct (tutors s !! new_ObjectId id).
Qed.

(** ** DELETE /tutors/:id *)

(** C6 as amended: in [src/index.js], with a well-formed id the answer is 200
    and carries the number of deleted tutors, 1 when the id was in the
    collection and 0 when it was not, and with a malformed id the answer is
    400.  The handler of the older server file deletes the same tutor but
    answers 404, without a count, when the id was not in the collection,
    and 200 with a message and no count when it was. *)
Theorem delete_tutor_status w id :
  faults w = [] →
  (let '(r, w') := delete_tutor id w in
   (ObjectId_isValid id = true →
      status r = 200
      ∧ body r = Success_deleted
                   match tutors (store w) !! new_ObjectId id with
                   | Some _ => 1
                   | None => 0
                   end
      ∧ tutors (store w') = delete (new_ObjectId id) (tutors (store w)))
   ∧ (ObjectId_isValid id = false → status r = 400))
  ∧ (let '(r, w') := delete_tutor_part_000 id w in
     (ObjectId_isValid id = true →
        match tutors (store w) !! new_ObjectId id with
        | Some _ => status r = 200 ∧ body r = Success_message "Tutor deleted"
        | None => status r = 404 ∧ body r = Failure_message "Tutor not found"
        end
        ∧ tutors (store w') = delete (new_ObjectId id) (tutors (store w)))
     ∧ (ObjectId_isValid id = false → status r = 400)).
Proof.
  intros Hw. no_faults w. unfold delete_tutor, delete_tutor_part_000.
  destruct (ObjectId_isValid id); run_calls; [|done].
  destruct (tutors s !! new_ObjectId id) eqn:Ht; simpl.
  - done.
  - rewrite delete_id by done. done.
Qed.

(** The older server file answers 404 when the id matches no tutor. *)
Lemma delete_tutor_part_000_missing w id :
  faults w = [] →
  ObjectId_isValid id = true →
  tutors (store w) !! new_ObjectId id = None →
  status (delete_tutor_part_000 id w).1 = 404.
Proof.
  intros Hw Hid Ht. no_faults w. unfold delete_tutor_part_000.
  rewrite Hid. run_calls. by rewrite Ht.
Qed.

(** C7: deleting a tutor leaves the bookings collection as it was, whatever
    the id and whether or not the storage call fails. *)
Theorem delete_tutor_keeps_bookings w id :
  bookings (store (delete_tutor id w).2) = bookings (store w).
Proof.
  unfold delete_tutor. destruct (ObjectId_isValid id); simpl; [|done].
  unfold try_catch, mbind, M_bind, mret, M_ret, deleteOne, call.
  destruct w as [s [|[] fs]]; simpl;
    by destruct (tutors s !! new_ObjectId id).
Qed.


(** ** PATCH /bookings/reviewed/:id *)

Lemma patch_booking_reviewed_fresh s id b :
  ObjectId_isValid id = true →
  bookings s !! new_ObjectId id = Some b →
  reviewed b = false →
  patch_booking_reviewed id {| store := s; faults := [] |}
  = (res_send (Success_message "Booking reviewed & tutor rating updated"),
     {| store := reviewed_store s (new_ObjectId id) b; faults := [] |}).
Proof.
  intros Hid Hb Hr. unfold patch_booking_reviewed. rewrite Hid. run_calls.
  rewrite Hb; simpl. rewrite Hr. run_calls. rewrite Hb; simpl. run_calls.
  unfold reviewed_store. by destruct (tutors s !! tutorId b).
Qed.

Lemma patch_booking_reviewed_again s id b :
  ObjectId_isValid id = true →
  bookings s !! new_ObjectId id = Some b →
  reviewed b = true →
  patch_booking_reviewed id {| store := s; faults := [] |}
  = (res_status_send 400 (Failure_message "Already reviewed"),
     {| store := s; faults := [] |}).
Proof.
  intros Hid Hb Hr. unfold patch_booking_reviewed. rewrite Hid. run_calls.
  rewrite Hb; simpl. by rewrite Hr.
Qed.

(** C1: the first request on a booking that is not reviewed is answered 200,
    sets the booking's flag and adds one to the review counter of the tutor
    the booking refers to, and of no other tutor; the second request is
    answered 400 and changes nothing in the store. *)
Theorem review_once_then_rejected w id (b : Booking) :
  faults w = [] →
  ObjectId_isValid id = true →
  bookings (store w) !! new_ObjectId id = Some b →
  reviewed b = false →
  let '(r1, w1) := patch_booking_reviewed id w in
  let '(r2, w2) := patch_booking_reviewed id w1 in
  status r1 = 200
  ∧ reviewed <$> bookings (store w1) !! new_ObjectId id = Some true
  ∧ review <$> tutors (store w1) !! tutorId b
    = (λ t, review t + 1)%Z <$> tutors (store w) !! tutorId b
  ∧ (∀ oid, oid ≠ tutorId b →
       tutors (store w1) !! oid = tutors (store w) !! oid)
  ∧ status r2 = 400
  ∧ store w2 = store w1.
Proof.
  intros Hw Hid Hb Hr. no_faults w.
  rewrite (patch_booking_reviewed_fresh _ _ _ Hid Hb Hr).
  erewrite patch_booking_reviewed_again; [|done| |];
    [|simpl; apply lookup_insert_eq|done].
  simpl. rewrite lookup_insert_eq. repeat split; try done.
  - destruct (tutors s !! tutorId b) eqn:Ht; simpl.
    + by rewrite lookup_insert_eq.
    + by rewrite Ht.
  - intros oid Hoid. destruct (tutors s !! tutorId b); [|done].
    by rewrite lookup_insert_ne.
Qed.

(** C8: when the lookup and the first write succeed and the second write
    fails, the answer is 500, the booking stays marked as reviewed and the
    tutors collection is as it was. *)
Theorem review_second_write_fails w id (b : Booking) fs :
  faults w = false :: false :: true :: fs →
  ObjectId_isValid id = true →
  bookings (store w) !! new_ObjectId id = Some b →
  reviewed b = false →
  let '(r, w') := patch_booking_reviewed id w in
  status r = 500
  ∧ reviewed <$> bookings (store w') !! new_ObjectId id = Some true
  ∧ tutors (store w') = tutors (store w).
Proof.
  intros Hw Hid Hb Hr. destruct w as [s fs']; simpl in *; subst fs'.
  unfold patch_booking_reviewed. rewrite Hid. run_calls.
  rewrite Hb; simpl. rewrite Hr. run_calls. rewrite Hb; simpl. run_calls.
  by rewrite lookup_insert_eq.
Qed.

(** C9: when the booking's tutor is not in the store, the request is still
    answered 200 with the success message, the booking is marked as
    reviewed, and the tutors collection is as it was. *)
Theorem review_with_dangling_tutor w id (b : Booking) :
  faults w = [] →
  ObjectId_isValid id = true →
  bookings (store w) !! new_ObjectId id = Some b →
  reviewed b = false →
  tutors (store w) !! tutorId b = None →
  let '(r, w') := patch_booking_reviewed id w in
  status r = 200
  ∧ body r = Success_message "Booking reviewed & tutor rating updated"
  ∧ reviewed <$> bookings (store w') !! new_ObjectId id = Some true
  ∧ tutors (store w') = tutors (store w).
Proof.
  intros Hw Hid Hb Hr Ht. no_faults w.
  rewrite (patch_booking_reviewed_fresh _ _ _ Hid Hb Hr). simpl.
  by rewrite lookup_insert_eq, Ht.
Qed.


(** ** Scanning a collection by a field *)

Lemma elem_of_scan {D} (p : D → bool) (m : gmap N D) oid d :
  (oid, d) ∈ scan p m ↔ m !! oid = Some d ∧ p d = true.
Proof.
  unfold scan. rewrite list_elem_of_filter, elem_of_map_to_list. simpl. tauto.
Qed.

Lemma scan_nil {D} (p : D → bool) (m : gmap N D) :
  scan p m = [] ↔ ∀ oid d, m !! oid = Some d → p d = false.
Proof.
  split.
  - intros Hnil oid d Hd. destruct (p d) eqn:Hp; [|done].
    assert ((oid, d) ∈ scan p m) as Hin by by apply elem_of_scan.
    rewrite Hnil in Hin. by apply elem_of_nil in Hin.
  - intros Hall. apply elem_of_nil_inv. intros [oid d] [Hd Hp]%elem_of_scan.
    by rewrite (Hall _ _ Hd) in Hp.
Qed.

Lemma scan_keys_NoDup {D} (p : D → bool) (m : gmap N D) :
  NoDup (scan p m).*1.
Proof.
  unfold scan. apply (sublist_NoDup _ (map_to_list m).*1).
  - apply NoDup_fst_map_to_list.
  - apply fmap_sublist, sublist_filter.
Qed.

Lemma has_email_true e (u : User) : has_email e u = true ↔ email u = e.
Proof. apply String.eqb_eq. Qed.

Lemma has_email_false e (u : User) : has_email e u = false ↔ email u ≠ e.
Proof. apply String.eqb_neq. Qed.

(** ** PATCH /users/:id *)

Lemma toLowerCase_user : toLowerCase "user" = "user".
Proof. reflexivity. Qed.

(** What the handlers make of a role that has the method: the string in
    lower case, and "user" for a role that is absent or falsy. *)
Lemma lowerable_role (v : option (JSValue JSNumber)) :
  lowerable v →
  ∃ r, method_toLowerCase (or_value v (JStr "user")) = Ok r
    ∧ (∀ x, v = Some (JStr x) → x ≠ "" → r = toLowerCase x)
    ∧ (truthy_value v = false → r = "user").
Proof.
  unfold or_value. intros [Hfalsy | [x ->]].
  - rewrite Hfalsy. simpl. exists "user". split; [done|]. split; [|done].
    intros x -> Hx%String.eqb_neq. simpl in Hfalsy. by rewrite Hx in Hfalsy.
  - simpl. destruct (String.eqb_spec x "") as [->|Hx]; simpl.
    + exists "user". split; [done|]. split; [|done].
      by intros ? [= <-] ?.
    + exists (toLowerCase x). split; [done|]. split; [|done].
      by intros ? [= <-] _.
Qed.

Lemma lowerable_cases (v : option (JSValue JSNumber)) :
  lowerable v ∨ ¬ lowerable v.
Proof.
  unfold lowerable. destruct (truthy_value v) eqn:Htruthy; [|by left; left].
  destruct v as [[| | |x]|]; try (by right; intros [?|[? ?]]).
  left. right. by exists x.
Qed.

(** The other roles do not have it. *)
Lemma not_lowerable_role (v : option (JSValue JSNumber)) :
  ¬ lowerable v →
  truthy_value v = true
  ∧ method_toLowerCase (or_value v (JStr "user")) = Throw TypeError
  ∧ method_toLowerCase (default JNull v) = Throw TypeError.
Proof.
  unfold lowerable, or_value. intros Hv.
  destruct (truthy_value v) eqn:Htruthy; [|by destruct Hv; left].
  split; [done|]. destruct v as [[| | |x]|]; simpl; try done.
  destruct Hv. right. by exists x.
Qed.

(** C10 as amended: with a well-formed id and a role that is a string and
    not empty, the answer is 200 and carries a count of modified users: 0,
    with the store unchanged, when no user has the id; when a user has it,
    that user's role becomes the sent role in lower case. *)
Theorem patch_user_status w id (x : string) :
  faults w = [] →
  ObjectId_isValid id = true →
  x ≠ "" →
  let '(r, w') := patch_user id (Some (JStr x)) w in
  status r = 200
  ∧ match users (store w) !! new_ObjectId id with
    | None => body r = Success_modified 0 ∧ store w' = store w
    | Some u =>
        body r = Success_modified
                   (if decide (role u = toLowerCase x) then 0 else 1)
        ∧ role <$> users (store w') !! new_ObjectId id = Some (toLowerCase x)
    end.
Proof.
  intros Hw Hid Hx. no_faults w. unfold patch_user. rewrite Hid; simpl.
  apply String.eqb_neq in Hx. rewrite Hx; simpl. run_calls.
  destruct (users s !! new_ObjectId id) as [u|]; simpl.
  - split; [done|]. rewrite lookup_insert_eq. split; [|done].
    case_decide as Hu.
    + apply String.eqb_eq in Hu. by rewrite Hu.
    + apply String.eqb_neq in Hu. by rewrite Hu.
  - done.
Qed.

(** ** POST /users *)

Lemma post_users_new s (b : UserBody JSNumber) e r oid now :
  present (body_name b) →
  body_email b = Some e → e ≠ "" →
  method_toLowerCase (or_value (body_role b) (JStr "user")) = Ok r →
  (∀ k u, users s !! k = Some u → email u ≠ e) →
  users s !! oid = None →
  post_users b oid now {| store := s; faults := [] |}
  = (res_status_send 201 (Success_inserted "User registered" oid),
     {| store := {|
          tutors := tutors s; bookings := bookings s;
          users := <[oid := {| name := default "" (body_name b); email := e;
                               role := r; user_createdAt := now |}]> (users s);
          users_email_unique := users_email_unique s |};
        faults := [] |}).
Proof.
  intros Hn%truthy_present He Hne Hr Hnone Hoid. unfold post_users.
  rewrite Hn, He; simpl. apply String.eqb_neq in Hne. rewrite Hne; simpl.
  assert (scan (has_email e) (users s) = []) as Hscan.
  { apply scan_nil. intros k u Hu. by apply has_email_false, (Hnone k). }
  run_calls. rewrite Hscan; simpl. rewrite Hr. run_calls.
  rewrite Hoid; simpl.
  rewrite Hscan. rewrite bool_decide_eq_true_2 by done.
  by rewrite orb_true_r.
Qed.

Lemma post_users_taken s (b : UserBody JSNumber) e oid now k u :
  present (body_name b) →
  body_email b = Some e → e ≠ "" →
  users s !! k = Some u → email u = e →
  post_users b oid now {| store := s; faults := [] |}
  = (res_status_send 409 (Failure_message "User already exists"),
     {| store := s; faults := [] |}).
Proof.
  intros Hn%truthy_present He Hne Hu Hmail. unfold post_users.
  rewrite Hn, He; simpl. apply String.eqb_neq in Hne. rewrite Hne; simpl.
  run_calls.
  destruct (scan (has_email e) (users s)) as [|x l] eqn:Hscan; [|done].
  exfalso. apply scan_nil with (oid := k) (d := u) in Hscan; [|done].
  apply has_email_false in Hscan. done.
Qed.

(** A registration whose role is truthy and not a string is answered 500
    once the email is known to be new, and nothing is stored. *)
Lemma post_users_role_not_a_string s (b : UserBody JSNumber) e oid now :
  present (body_name b) →
  body_email b = Some e → e ≠ "" →
  ¬ lowerable (body_role b) →
  (∀ k u, users s !! k = Some u → email u ≠ e) →
  post_users b oid now {| store := s; faults := [] |}
  = (res_status_send 500 (Failure_error "Failed to add user"),
     {| store := s; faults := [] |}).
Proof.
  intros Hn%truthy_present He Hne (_ & Hr & _)%not_lowerable_role Hnone.
  unfold post_users.
  rewrite Hn, He; simpl. apply String.eqb_neq in Hne. rewrite Hne; simpl.
  assert (scan (has_email e) (users s) = []) as Hscan.
  { apply scan_nil. intros k u Hu. by apply has_email_false, (Hnone k). }
  run_calls. rewrite Hscan; simpl. by rewrite Hr.
Qed.

(** C3 as amended: of two registrations with the same email, sent one after
    the other to a store that has no user with that email, the first, when
    its role is absent, falsy or a string, is answered 201 and inserts one
    user, whose role is the sent string in lower case, or "user" when the
    role is absent or falsy (the empty string included); the second is
    answered 409 and changes nothing; the store ends with exactly one user
    with that email. *)
Theorem register_same_email_twice w (b1 b2 : UserBody JSNumber) e oid1 oid2
    now1 now2 :
  faults w = [] →
  present (body_name b1) → present (body_name b2) →
  body_email b1 = Some e → body_email b2 = Some e → e ≠ "" →
  lowerable (body_role b1) →
  (∀ k u, users (store w) !! k = Some u → email u ≠ e) →
  users (store w) !! oid1 = None →
  let '(r1, w1) := post_users b1 oid1 now1 w in
  let '(r2, w2) := post_users b2 oid2 now2 w1 in
  status r1 = 201
  ∧ (∃ u, users (store w1) = <[oid1 := u]> (users (store w))
        ∧ email u = e
        ∧ (∀ x, body_role b1 = Some (JStr x) → x ≠ "" →
             role u = toLowerCase x)
        ∧ (truthy_value (body_role b1) = false → role u = "user"))
  ∧ status r2 = 409
  ∧ store w2 = store w1
  ∧ one_user_with_email e (store w2).
Proof.
  intros Hw Hn1 Hn2 He1 He2 Hne Hrole Hnone Hoid. no_faults w.
  destruct (lowerable_role _ Hrole) as (r & Hr & Hstr & Hfalsy).
  rewrite (post_users_new _ _ _ _ _ _ Hn1 He1 Hne Hr Hnone Hoid).
  erewrite (post_users_taken _ _ e _ _ oid1); [|done..| |];
    [|simpl; apply lookup_insert_eq|done].
  simpl. repeat split; try done.
  - by eexists.
  - unfold one_user_with_email; simpl. eexists oid1, _.
    rewrite lookup_insert_eq. repeat split.
    intros oid' u'. rewrite lookup_insert. case_decide as Hk; [done|].
    intros Hu' Hmail. by destruct (Hnone _ _ Hu').
Qed.

(** ** POST /tutors *)

Section PostTutors.

Variable Number : option (JSValue JSNumber) → JSNumber.

(** C4: a request with tutorName, language and a non-null price is answered
    201 and stores one tutor, with review 0, the price converted to a number
    and the creation time; a request that misses one of the three is
    answered 400 and leaves the world as it was. *)
Theorem post_tutors_status w (b : TutorBody JSNumber) oid now :
  (present (body_tutorName b) ∧ present (body_language b)
     ∧ non_null (body_price b) →
   faults w = [] →
   tutors (store w) !! oid = None →
   let '(r, w') := post_tutors Number b oid now w in
   status r = 201
   ∧ ∃ t, tutors (store w') = <[oid := t]> (tutors (store w))
        ∧ review t = 0%Z
        ∧ price t = Number (body_price b)
        ∧ tutor_createdAt t = now)
  ∧ (¬ present (body_tutorName b) ∨ ¬ present (body_language b)
       ∨ ¬ non_null (body_price b) →
     let '(r, w') := post_tutors Number b oid now w in
     status r = 400 ∧ w' = w).
Proof.
  unfold post_tutors. split.
  - intros (Hn%truthy_present & Hl%truthy_present & Hp%is_nullish_non_null)
      Hw Hoid.
    rewrite Hn, Hl, Hp; simpl. no_faults w. run_calls. rewrite Hoid; simpl.
    split; [done|]. by eexists.
  - rewrite <- !truthy_absent, <- is_nullish_non_null.
    intros Hmiss.
    assert (negb (truthy (body_tutorName b)) || negb (truthy (body_language b))
            || is_nullish (body_price b) = true) as ->; [|done].
    destruct (truthy (body_tutorName b)), (truthy (body_language b)),
      (is_nullish (body_price b)); simpl; try done;
      by destruct Hmiss as [?|[?|?]].
Qed.

End PostTutors.


(** ** GET /bookings/:email *)

Lemma elem_of_option_list {A} (o : option A) (x : A) :
  x ∈ option_list o ↔ o = Some x.
Proof.
  destruct o as [y|]; simpl.
  - rewrite list_elem_of_singleton. split; congruence.
  - rewrite elem_of_nil. split; [done|discriminate].
Qed.

Lemma elem_of_unwind_lookup (ts : gmap N (Tutor JSNumber))
    (l : list (N * Booking)) oid b t :
  (oid, b, t) ∈ stage_unwind (stage_lookup ts l)
  ↔ (oid, b) ∈ l ∧ ts !! tutorId b = Some t.
Proof.
  unfold stage_unwind, stage_lookup. rewrite list_elem_of_bind. split.
  - intros ([[k b'] ol] & Hin & Hx). simpl in Hin.
    apply list_elem_of_fmap in Hin as (t' & Heq & Ht').
    apply list_elem_of_fmap in Hx as ([k' b''] & Heq' & Hkb).
    simplify_eq/=. split; [done|]. by apply elem_of_option_list.
  - intros [Hin Ht]. exists ((oid, b), option_list (ts !! tutorId b)). split.
    + simpl. apply list_elem_of_fmap. exists t. split; [done|].
      by apply elem_of_option_list.
    + apply list_elem_of_fmap. by exists (oid, b).
Qed.

Lemma unwind_lookup_ids (ts : gmap N (Tutor JSNumber)) (l : list (N * Booking)) :
  row_id <$> (project <$> stage_unwind (stage_lookup ts l)) `sublist_of` l.*1.
Proof.
  induction l as [|[k b] l IH]; [done|].
  unfold stage_unwind, stage_lookup in *. simpl.
  destruct (ts !! tutorId b); simpl.
  - by apply sublist_skip.
  - by apply sublist_cons.
Qed.

(** C5: the answer lists, once each, the bookings of the email whose tutor is
    in the store, with the tutor's name, language, price and image; a
    booking whose tutor is not in the store is not listed. *)
Theorem get_bookings_joined w e :
  faults w = [] →
  let '(r, w') := get_bookings e w in
  status r = 200
  ∧ ∃ rows, body r = Send_bookings rows
      ∧ (∀ row, row ∈ rows ↔
           ∃ oid b t,
             bookings (store w) !! oid = Some b
             ∧ userEmail b = e
             ∧ tutors (store w) !! tutorId b = Some t
             ∧ row = {| row_id := oid; row_tutorId := tutorId b;
                        row_userEmail := userEmail b;
                        row_bookedAt := bookedAt b;
                        row_reviewed := reviewed b;
                        row_tutorName := tutorName t;
                        row_language := language t;
                        row_price := price t;
                        row_image := image t |})
      ∧ NoDup (row_id <$> rows)
      ∧ (∀ oid b, bookings (store w) !! oid = Some b →
           tutors (store w) !! tutorId b = None →
           oid ∉ row_id <$> rows).
Proof.
  intros Hw. no_faults w. unfold get_bookings. run_calls.
  split; [done|]. eexists; split; [done|].
  assert (∀ row,
    row ∈ project <$> stage_unwind (stage_lookup (tutors s) (stage_match e (bookings s)))
    ↔ ∃ oid b t, bookings s !! oid = Some b ∧ userEmail b = e
        ∧ tutors s !! tutorId b = Some t ∧ row = project (oid, b, t)) as Hrows.
  { intros row. rewrite list_elem_of_fmap. split.
    - intros ([[oid b] t] & -> & [Hin Ht]%elem_of_unwind_lookup).
      apply elem_of_scan in Hin as [Hb He%String.eqb_eq].
      by exists oid, b, t.
    - intros (oid & b & t & Hb & He & Ht & ->). exists (oid, b, t).
      split; [done|]. apply elem_of_unwind_lookup. split; [|done].
      apply elem_of_scan. split; [done|]. by apply String.eqb_eq. }
  split; [exact Hrows|]. split.
  - apply (sublist_NoDup _ (stage_match e (bookings s)).*1).
    + apply scan_keys_NoDup.
    + apply unwind_lookup_ids.
  - intros oid b Hb Hnone (row & -> & Hrow)%list_elem_of_fmap.
    apply Hrows in Hrow as (oid' & b' & t & Hb' & _ & Ht & ->). simpl in *.
    congruence.
Qed.

End Properties.

(** * The theorems at the sample data *)

Lemma sample_hex24 :
  hex24 Sample.ana_id ∧ hex24 Sample.ana_id_upper ∧ hex24 Sample.ben_id
  ∧ ¬ hex24 "not-an-id" ∧ ¬ hex24 "507f1f77bcf86cd79943901g".
Proof.
  repeat split;
    try (apply ObjectId_isValid_hex24; vm_compute; reflexivity);
    apply ObjectId_isValid_not_hex24; vm_compute; reflexivity.
Qed.

Lemma get_tutor_status_witness :
  status (get_tutor "507f1f77bcf86cd79943901g" Sample.world0).1 = 400
  ∧ status (get_tutor Sample.ben_id Sample.world0).1 = 404
  ∧ status (get_tutor Sample.ana_id_upper Sample.world0).1 = 200
  ∧ body (get_tutor Sample.ana_id_upper Sample.world0).1
    = Send_tutor (new_ObjectId Sample.ana_id) Sample.ana.
Proof.
  destruct sample_hex24 as (Hana & Hupper & Hben & _ & Hbad).
  split; [|split].
  - exact (proj1 (get_tutor_status Sample.world0 _) Hbad).
  - exact (proj2 (get_tutor_status Sample.world0 _) Hben eq_refl).
  - exact (proj2 (get_tutor_status Sample.world0 _) Hupper eq_refl).
Defined.

Lemma review_once_then_rejected_witness :
  let '(r1, w1) := patch_booking_reviewed Sample.booking1_id Sample.world0 in
  let '(r2, w2) := patch_booking_reviewed Sample.booking1_id w1 in
  status r1 = 200
  ∧ review <$> tutors (store w1) !! new_ObjectId Sample.ana_id = Some 4%Z
  ∧ status r2 = 400
  ∧ store w2 = store w1.
Proof.
  pose proof (review_once_then_rejected Sample.world0 Sample.booking1_id
                Sample.booking1 eq_refl eq_refl eq_refl eq_refl) as H.
  destruct (patch_booking_reviewed Sample.booking1_id Sample.world0) as [r1 w1].
  destruct (patch_booking_reviewed Sample.booking1_id w1) as [r2 w2].
  destruct H as (H1 & _ & H2 & _ & H3 & H4).
  repeat split; done.
Defined.

Lemma register_same_email_twice_witness :
  let '(r1, w1) := post_users Sample.user_body 7%N 1700000003000 Sample.world0 in
  let '(r2, w2) := post_users Sample.user_body 8%N 1700000004000 w1 in
  status r1 = 201
  ∧ role <$> users (store w1) !! 7%N = Some "admin"
  ∧ status r2 = 409
  ∧ store w2 = store w1
  ∧ one_user_with_email "lee@example.com" (store w2).
Proof.
  assert (∀ k u, users (store Sample.world0) !! k = Some u
                 → email u ≠ "lee@example.com") as Hnone.
  { intros k u Hu. apply has_email_false.
    revert k u Hu. apply scan_nil. vm_compute. reflexivity. }
  assert (present (Some "Lee")) as Hname by (apply truthy_present; reflexivity).
  assert (lowerable (body_role Sample.user_body)) as Hrole
    by (right; by exists "Admin").
  pose proof (register_same_email_twice Sample.world0 Sample.user_body
                Sample.user_body "lee@example.com" 7%N 8%N 1700000003000
                1700000004000 eq_refl Hname Hname eq_refl eq_refl
                ltac:(discriminate) Hrole Hnone eq_refl) as H.
  destruct (post_users Sample.user_body 7%N 1700000003000 Sample.world0)
    as [r1 w1].
  destruct (post_users Sample.user_body 8%N 1700000004000 w1) as [r2 w2].
  destruct H as (H1 & (u & Hu & _ & Hrole' & _) & H2 & H3 & H4).
  repeat split; try done.
  rewrite Hu, lookup_insert_eq. simpl. f_equal.
  exact (Hrole' "Admin" eq_refl ltac:(discriminate)).
Defined.

(** A registration whose role is [true] is answered 500 and stores nothing,
    where C3 as first stated promises 201. *)
Lemma register_role_not_a_string_counterexample :
  let '(r1, w1) := post_users Sample.user_body_role_true 7%N 1700000003000
                     Sample.world0 in
  status r1 = 500 ∧ status r1 ≠ 201 ∧ store w1 = store Sample.world0.
Proof. vm_compute. repeat split. discriminate. Qed.

Lemma post_tutors_status_witness :
  (let '(r, w') := post_tutors Sample.to_number Sample.tutor_body
                     (new_ObjectId Sample.ben_id) 1700000005000 Sample.world0 in
   status r = 201
   ∧ ∃ t, tutors (store w') !! new_ObjectId Sample.ben_id = Some t
        ∧ review t = 0%Z ∧ price t = 25%Z
        ∧ tutor_createdAt t = 1700000005000%Z)
  ∧ (let '(r, w') := post_tutors Sample.to_number
                       {| body_tutorName := Some "Ben"; body_language := Some "";
                          body_price := Some (JNum 25%Z);
                          body_description := None; body_image := None |}
                       (new_ObjectId Sample.ben_id) 1700000005000 Sample.world0 in
     status r = 400 ∧ w' = Sample.world0).
Proof.
  split.
  - assert (present (Some "Ben") ∧ present (Some "German")
            ∧ non_null (Some (JNum 25%Z))) as Hfields.
    { repeat split; try (apply truthy_present; reflexivity).
      by exists (JNum 25%Z). }
    pose proof (proj1 (post_tutors_status Sample.to_number Sample.world0
                         Sample.tutor_body (new_ObjectId Sample.ben_id)
                         1700000005000) Hfields eq_refl eq_refl) as H.
    destruct (post_tutors _ _ _ _ _) as [r w'].
    destruct H as (H1 & t & Ht & H2 & H3 & H4).
    split; [done|]. exists t. rewrite Ht, lookup_insert_eq. done.
  - apply (proj2 (post_tutors_status Sample.to_number Sample.world0 _ _ _)).
    right; left. simpl. apply truthy_absent. reflexivity.
Defined.

Lemma get_bookings_joined_witness :
  let '(r, _) := get_bookings "kim@example.com" Sample.world0 in
  status r = 200
  ∧ ∃ rows, body r = Send_bookings rows
      ∧ new_ObjectId Sample.booking1_id ∈ row_id <$> rows
      ∧ new_ObjectId Sample.booking2_id ∉ row_id <$> rows.
Proof.
  pose proof (get_bookings_joined Sample.world0 "kim@example.com" eq_refl) as H.
  destruct (get_bookings _ _) as [r w'].
  destruct H as (H1 & rows & Hbody & Hrows & _ & Hdangling).
  split; [done|]. exists rows. split; [done|]. split.
  - apply list_elem_of_fmap. eexists. split; [|apply Hrows].
    2:{ exists (new_ObjectId Sample.booking1_id), Sample.booking1, Sample.ana.
        repeat split; reflexivity. }
    reflexivity.
  - apply (Hdangling _ Sample.booking2); reflexivity.
Defined.

Lemma delete_tutor_status_witness :
  (let '(r, w') := delete_tutor Sample.ana_id Sample.world0 in
   status r = 200 ∧ body r = Success_deleted 1
   ∧ tutors (store w') !! new_ObjectId Sample.ana_id = None)
  ∧ (let '(r, _) := delete_tutor Sample.ben_id Sample.world0 in
     status r = 200 ∧ body r = Success_deleted 0)
  ∧ (let '(r, _) := delete_tutor "ana" Sample.world0 in status r = 400)
  ∧ (let '(r, _) := delete_tutor_part_000 Sample.ana_id Sample.world0 in
     status r = 200 ∧ body r = Success_message "Tutor deleted").
Proof.
  split; [|split; [|split]].
  - pose proof (delete_tutor_status Sample.world0 Sample.ana_id eq_refl) as H.
    destruct (delete_tutor _ _) as [r w'].
    destruct H as [[H _] _]. destruct (H eq_refl) as (H1 & H2 & H3).
    repeat split; [done..|]. rewrite H3. apply lookup_delete_eq.
  - pose proof (delete_tutor_status Sample.world0 Sample.ben_id eq_refl) as H.
    destruct (delete_tutor _ _) as [r w'].
    destruct H as [[H _] _]. destruct (H eq_refl) as (H1 & H2 & H3). done.
  - pose proof (delete_tutor_status Sample.world0 "ana" eq_refl) as H.
    destruct (delete_tutor _ _) as [r w'].
    destruct H as [[_ H] _]. exact (H eq_refl).
  - pose proof (delete_tutor_status Sample.world0 Sample.ana_id eq_refl) as H.
    destruct (delete_tutor_part_000 _ _) as [r w'].
    destruct H as [_ [H _]]. exact (proj1 (H eq_refl)).
Defined.

(** The handler of the older server file answers 404, and sends no count,
    when the id is well-formed and no tutor has it, where C6 as first
    stated promises 200 with a count of 0. *)
Lemma delete_tutor_part_000_counterexample :
  let '(r, _) := delete_tutor_part_000 Sample.ben_id Sample.world0 in
  status r = 404 ∧ status r ≠ 200
  ∧ body r = Failure_message "Tutor not found"
  ∧ body r ≠ Success_deleted 0.
Proof. vm_compute. repeat split; discriminate. Qed.

Lemma review_second_write_fails_witness :
  let '(r, w') := patch_booking_reviewed Sample.booking1_id
                    Sample.world_third_call_fails in
  status r = 500
  ∧ reviewed <$> bookings (store w') !! new_ObjectId Sample.booking1_id
    = Some true
  ∧ review <$> tutors (store w') !! new_ObjectId Sample.ana_id = Some 3%Z.
Proof.
  pose proof (review_second_write_fails Sample.world_third_call_fails
                Sample.booking1_id Sample.booking1 [] eq_refl eq_refl eq_refl
                eq_refl) as H.
  destruct (patch_booking_reviewed _ _) as [r w'].
  destruct H as (H1 & H2 & H3). repeat split; [done..|]. by rewrite H3.
Defined.

Lemma review_with_dangling_tutor_witness :
  let '(r, w') := patch_booking_reviewed Sample.booking2_id Sample.world0 in
  status r = 200
  ∧ body r = Success_message "Booking reviewed & tutor rating updated"
  ∧ reviewed <$> bookings (store w') !! new_ObjectId Sample.booking2_id
    = Some true
  ∧ tutors (store w') = tutors (store Sample.world0).
Proof.
  exact (review_with_dangling_tutor Sample.world0 Sample.booking2_id
           Sample.booking2 eq_refl eq_refl eq_refl eq_refl eq_refl).
Defined.

Lemma patch_user_status_witness :
  (let '(r, w') := patch_user Sample.user1_id (Some (JStr "ADMIN"))
                     Sample.world0 in
   status r = 200
   ∧ body r = Success_modified 1
   ∧ role <$> users (store w') !! new_ObjectId Sample.user1_id = Some "admin")
  ∧ (let '(r, w') := patch_user Sample.ana_id (Some (JStr "ADMIN"))
                       Sample.world0 in
     status r = 200
     ∧ body r = Success_modified 0 ∧ store w' = store Sample.world0).
Proof.
  split.
  - exact (patch_user_status Sample.world0 Sample.user1_id "ADMIN"
             eq_refl eq_refl ltac:(discriminate)).
  - exact (patch_user_status Sample.world0 Sample.ana_id "ADMIN"
             eq_refl eq_refl ltac:(discriminate)).
Defined.

(** A role that is [true] is present in the body, and the request is
    answered 500, where C10 as first stated promises 200. *)
Lemma patch_user_role_not_a_string_counterexample :
  let '(r, w') := patch_user Sample.user1_id (Some (JBool true))
                    Sample.world0 in
  status r = 500 ∧ status r ≠ 200 ∧ store w' = store Sample.world0.
Proof. vm_compute. repeat split. discriminate. Qed.

(** * Further properties of the routes *)

Section MoreProperties.

Context {JSNumber : Type} `{!Builtins JSNumber}.
Implicit Types (w : World JSNumber) (s : Store JSNumber).
Implicit Types (id e : string) (oid : N).

Ltac run_all :=
  repeat (unfold try_catch, try_catch_reply, respond, mbind, M_bind, mret,
            M_ret, findOne, updateOne, deleteOne, insertOne,
            aggregate_bookings, find_toArray, countDocuments,
            db_command_ping, Promise_all4, evaluate;
          rewrite ?call_no_fault, ?call_scheduled_ok, ?call_scheduled_fault;
          simpl).

Ltac calm w :=
  let s := fresh "s" in let fs := fresh "fs" in
  destruct w as [s fs]; simpl in *; subst fs.

(** ** Validation comes before storage *)


(** [PATCH /users/:id] with a well-formed id and a role that is absent or
    falsy is answered 400 without a storage call. *)
Lemma patch_user_role_required w id (role : option (JSValue JSNumber)) :
  ObjectId_isValid id = true →
  truthy_value role = false →
  patch_user id role w
  = (res_status_send 400 (Failure_error "Role is required"), w).
Proof.
  intros Hid Hrole. unfold patch_user. by rewrite Hid, Hrole.
Qed.

(** ** Storage failures *)

(** X2: When the first storage call of a request fails, the route answers 500
    and the store is as it was; [GET /health] answers 500 with [ok] false.
    The ids are well-formed and the bodies pass validation, so that each
    route does reach the database. *)
Theorem first_call_fails_is_500 (Number : option (JSValue JSNumber) → JSNumber)
    w id e fs (tb : TutorBody JSNumber) (bb : BookingBody) tid
    (ub : UserBody JSNumber) x oid now :
  faults w = true :: fs →
  ObjectId_isValid id = true →
  present (body_tutorName tb) → present (body_language tb) →
  non_null (body_price tb) →
  body_tutorId bb = Some tid → ObjectId_isValid tid = true →
  present (body_userEmail bb) → present (body_date bb) →
  present (body_name ub) → present (body_email ub) →
  x ≠ "" →
  let failed (x : Response JSNumber * World JSNumber) :=
    status x.1 = 500 ∧ store x.2 = store w in
  let failed' (x : Reply JSNumber * World JSNumber) :=
    reply_status x.1 = 500 ∧ store x.2 = store w in
  failed (post_tutors Number tb oid now w)
  ∧ failed (get_tutor id w)
  ∧ failed (delete_tutor id w)
  ∧ failed (post_bookings bb oid now w)
  ∧ failed (get_bookings e w)
  ∧ failed (patch_booking_reviewed id w)
  ∧ failed (post_users ub oid now w)
  ∧ failed (patch_user id (Some (JStr x)) w)
  ∧ failed (delete_user id w)
  ∧ failed' (get_tutors w)
  ∧ failed' (get_users w)
  ∧ failed' (get_user_by_email e w)
  ∧ failed' (dashboard_stats w)
  ∧ failed' (health w)
  ∧ reply_body (health w).1 = Health_doc false.
Proof.
  intros Hw Hid Htn%truthy_present Htl%truthy_present Htp%is_nullish_non_null
    Htid Hvalid Hbe%truthy_present Hbd%truthy_present
    Hun%truthy_present Hue%truthy_present Hx%String.eqb_neq.
  destruct w as [s fs']; simpl in *; subst fs'.
  assert (truthy (body_tutorId bb) = true) as Hbt.
  { rewrite Htid. simpl. by destruct tid. }
  unfold post_tutors, get_tutor, delete_tutor, post_bookings, get_bookings,
    patch_booking_reviewed, post_users, patch_user, delete_user, get_tutors,
    get_users, get_user_by_email, dashboard_stats, health.
  rewrite Hid, Htn, Htl, Htp, Hbt, Hbe, Hbd, Hun, Hue. simpl.
  rewrite Htid. simpl. rewrite Hvalid, Hx. simpl. run_all.
  repeat split; try done.
  all: unfold call; simpl.
  all: by destruct fs as [|[] [|[] [|[] ?]]]; simpl.
Qed.

(** ** POST /bookings *)

(** X3: A booking request with a well-formed tutorId, a userEmail and a date is
    answered 201 and stores one booking, not reviewed, for that tutor,
    whether or not the tutor is in the store; a request that misses a field
    or whose tutorId is malformed is answered 400 and nothing is stored. *)
Theorem post_bookings_status w (b : BookingBody) oid now :
  (∀ tid, body_tutorId b = Some tid → ObjectId_isValid tid = true →
     present (body_userEmail b) → present (body_date b) →
     faults w = [] → bookings (store w) !! oid = None →
     let '(r, w') := post_bookings b oid now w in
     status r = 201
     ∧ body r = Success_inserted "Booking successful" oid
     ∧ ∃ bk, bookings (store w') = <[oid := bk]> (bookings (store w))
          ∧ tutors (store w') = tutors (store w)
          ∧ reviewed bk = false
          ∧ tutorId bk = new_ObjectId tid
          ∧ Some (userEmail bk) = body_userEmail b
          ∧ Some (bookedAt bk) = body_date b
          ∧ booking_createdAt bk = now)
  ∧ (¬ present (body_tutorId b) ∨ ¬ present (body_userEmail b)
       ∨ ¬ present (body_date b) →
     post_bookings b oid now w
     = (res_status_send 400 (Failure_error "Missing required fields"), w))
  ∧ (∀ tid, body_tutorId b = Some tid → ObjectId_isValid tid = false →
     status (post_bookings b oid now w).1 = 400
     ∧ (post_bookings b oid now w).2 = w).
Proof.
  unfold post_bookings. split; [|split].
  - intros tid Htid Hvalid He%truthy_present Hd%truthy_present Hw Hoid.
    assert (truthy (body_tutorId b) = true) as Ht.
    { rewrite Htid. simpl. destruct tid; [done|]. done. }
    rewrite Ht, He, Hd. simpl. rewrite Htid. simpl. rewrite Hvalid. simpl.
    calm w. run_all. rewrite Hoid. simpl.
    repeat split. eexists. repeat split; simpl.
    + apply truthy_present in He. by destruct He as (x & -> & _).
    + apply truthy_present in Hd. by destruct Hd as (x & -> & _).
  - rewrite <- !truthy_absent. intros Hmiss.
    assert (negb (truthy (body_tutorId b)) || negb (truthy (body_userEmail b))
            || negb (truthy (body_date b)) = true) as ->; [|done].
    destruct (truthy (body_tutorId b)), (truthy (body_userEmail b)),
      (truthy (body_date b)); simpl; try done;
      by destruct Hmiss as [?|[?|?]].
  - intros tid Htid Hvalid. rewrite Htid. simpl. rewrite Hvalid. simpl.
    by destruct (negb (negb (String.eqb tid ""))
                 || negb (truthy (body_userEmail b))
                 || negb (truthy (body_date b))).
Qed.


(** ** What the routes do to a store whose calls succeed *)

Lemma post_bookings_run s (b : BookingBody) tid oid now :
  body_tutorId b = Some tid → ObjectId_isValid tid = true →
  present (body_userEmail b) → present (body_date b) →
  bookings s !! oid = None →
  post_bookings b oid now {| store := s; faults := [] |}
  = (res_status_send 201 (Success_inserted "Booking successful" oid),
     {| store := {|
          tutors := tutors s;
          bookings := <[oid := {| tutorId := new_ObjectId tid;
                                  userEmail := default "" (body_userEmail b);
                                  bookedAt := default "" (body_date b);
                                  reviewed := false;
                                  booking_createdAt := now |}]> (bookings s);
          users := users s;
          users_email_unique := users_email_unique s |};
        faults := [] |}).
Proof.
  intros Htid Hvalid He%truthy_present Hd%truthy_present Hoid.
  unfold post_bookings.
  assert (truthy (body_tutorId b) = true) as Ht.
  { rewrite Htid. simpl. by destruct tid. }
  rewrite Ht, He, Hd. simpl. rewrite Htid. simpl. rewrite Hvalid. simpl.
  run_all. by rewrite Hoid.
Qed.

Lemma post_tutors_run (Number : option (JSValue JSNumber) → JSNumber) s
    (b : TutorBody JSNumber) oid now :
  present (body_tutorName b) → present (body_language b) →
  non_null (body_price b) →
  tutors s !! oid = None →
  post_tutors Number b oid now {| store := s; faults := [] |}
  = (res_status_send 201 (Success_inserted "Tutor added" oid),
     {| store := {|
          tutors := <[oid := {| tutorName := default "" (body_tutorName b);
                                language := default "" (body_language b);
                                price := Number (body_price b);
                                description := or_else (body_description b) "";
                                image := or_else (body_image b) "";
                                review := 0;
                                tutor_createdAt := now |}]> (tutors s);
          bookings := bookings s;
          users := users s;
          users_email_unique := users_email_unique s |};
        faults := [] |}).
Proof.
  intros Hn%truthy_present Hl%truthy_present Hp%is_nullish_non_null Hoid.
  unfold post_tutors. rewrite Hn, Hl, Hp. simpl. run_all. by rewrite Hoid.
Qed.

Lemma delete_tutor_run s id :
  ObjectId_isValid id = true →
  delete_tutor id {| store := s; faults := [] |}
  = (res_send (Success_deleted
                 match tutors s !! new_ObjectId id with
                 | Some _ => 1
                 | None => 0
                 end),
     {| store := {| tutors := delete (new_ObjectId id) (tutors s);
                    bookings := bookings s; users := users s;
                    users_email_unique := users_email_unique s |};
        faults := [] |}).
Proof.
  intros Hid. unfold delete_tutor. rewrite Hid. run_all.
  destruct (tutors s !! new_ObjectId id) eqn:Ht; simpl; [done|].
  rewrite delete_id by done. by destruct s.
Qed.

Lemma delete_user_run s id :
  ObjectId_isValid id = true →
  delete_user id {| store := s; faults := [] |}
  = (res_send (Success_deleted
                 match users s !! new_ObjectId id with
                 | Some _ => 1
                 | None => 0
                 end),
     {| store := {| tutors := tutors s; bookings := bookings s;
                    users := delete (new_ObjectId id) (users s);
                    users_email_unique := users_email_unique s |};
        faults := [] |}).
Proof.
  intros Hid. unfold delete_user. rewrite Hid. run_all.
  destruct (users s !! new_ObjectId id) eqn:Ht; simpl; [done|].
  rewrite delete_id by done. by destruct s.
Qed.

Lemma get_bookings_rows s e :
  ∃ rows,
    get_bookings e {| store := s; faults := [] |}
    = (res_send (Send_bookings rows), {| store := s; faults := [] |})
    ∧ ∀ row, row ∈ rows ↔
        ∃ oid b t, bookings s !! oid = Some b ∧ userEmail b = e
          ∧ tutors s !! tutorId b = Some t ∧ row = project (oid, b, t).
Proof.
  eexists. split; [unfold get_bookings; by run_all|].
  intros row. rewrite list_elem_of_fmap. split.
  - intros ([[oid b] t] & -> & [Hin Ht]%elem_of_unwind_lookup).
    apply elem_of_scan in Hin as [Hb He%String.eqb_eq].
    by exists oid, b, t.
  - intros (oid & b & t & Hb & He & Ht & ->). exists (oid, b, t).
    split; [done|]. apply elem_of_unwind_lookup. split; [|done].
    apply elem_of_scan. split; [done|]. by apply String.eqb_eq.
Qed.

(** ** Round trips *)

(** X4: A tutor that was just created is what [GET /tutors/:id] returns under
    the new id: the sent name and language, the converted price, and a
    review counter of 0. *)
Theorem post_tutors_then_get (Number : option (JSValue JSNumber) → JSNumber) w
    (b : TutorBody JSNumber) id now :
  faults w = [] →
  ObjectId_isValid id = true →
  present (body_tutorName b) → present (body_language b) →
  non_null (body_price b) →
  tutors (store w) !! new_ObjectId id = None →
  let '(r1, w1) := post_tutors Number b (new_ObjectId id) now w in
  let '(r2, w2) := get_tutor id w1 in
  status r1 = 201
  ∧ status r2 = 200
  ∧ ∃ t, body r2 = Send_tutor (new_ObjectId id) t
       ∧ Some (tutorName t) = body_tutorName b
       ∧ Some (language t) = body_language b
       ∧ price t = Number (body_price b)
       ∧ review t = 0%Z
  ∧ w2 = w1.
Proof.
  intros Hw Hid Hn Hl Hp Hoid. calm w.
  rewrite (post_tutors_run _ _ _ _ _ Hn Hl Hp Hoid).
  unfold get_tutor. rewrite Hid. run_all. rewrite lookup_insert_eq. simpl.
  repeat split. eexists. repeat split; simpl.
  - by destruct Hn as (x & -> & _).
  - by destruct Hl as (x & -> & _).
Qed.

(** X5: After [DELETE /tutors/:id] the tutor cannot be fetched, a second delete
    finds nothing to delete, and the deleted tutor's bookings, which are
    still stored, are no longer listed by [GET /bookings/:email]. *)
Theorem delete_tutor_then w id e :
  faults w = [] →
  ObjectId_isValid id = true →
  let w1 := (delete_tutor id w).2 in
  status (get_tutor id w1).1 = 404
  ∧ body (delete_tutor id w1).1 = Success_deleted 0
  ∧ bookings (store w1) = bookings (store w)
  ∧ ∀ rows, body (get_bookings e w1).1 = Send_bookings rows →
      ∀ row, row ∈ rows → row_tutorId row ≠ new_ObjectId id.
Proof.
  intros Hw Hid. calm w. rewrite (delete_tutor_run _ _ Hid).
  cbv zeta. cbn [snd].
  set (s1 := {| tutors := delete (new_ObjectId id) (tutors s);
                bookings := bookings s; users := users s;
                users_email_unique := users_email_unique s |}).
  split; [|split; [|split]].
  - unfold get_tutor. rewrite Hid. run_all. by rewrite lookup_delete_eq.
  - rewrite (delete_tutor_run _ _ Hid). simpl. by rewrite lookup_delete_eq.
  - done.
  - intros rows Hrows row Hrow.
    destruct (get_bookings_rows s1 e) as (rows' & Hrun & Hiff).
    rewrite Hrun in Hrows. injection Hrows as ->.
    apply Hiff in Hrow as (oid & b & t & _ & _ & Ht & ->). simpl.
    intros Heq. simpl in Ht. rewrite Heq, lookup_delete_eq in Ht. done.
Qed.


(** X6: A booking that was just created is listed by [GET /bookings/:email]
    exactly when its tutor is in the store, and it can be reviewed once:
    the first [PATCH /bookings/reviewed/:id] is answered 200 and the second
    400. *)
Theorem post_bookings_then w (b : BookingBody) tid e id now :
  faults w = [] →
  body_tutorId b = Some tid → ObjectId_isValid tid = true →
  body_userEmail b = Some e → e ≠ "" →
  present (body_date b) →
  ObjectId_isValid id = true →
  bookings (store w) !! new_ObjectId id = None →
  let w1 := (post_bookings b (new_ObjectId id) now w).2 in
  (∀ rows, body (get_bookings e w1).1 = Send_bookings rows →
     (new_ObjectId id ∈ row_id <$> rows
      ↔ is_Some (tutors (store w) !! new_ObjectId tid)))
  ∧ status (patch_booking_reviewed id w1).1 = 200
  ∧ status (patch_booking_reviewed id (patch_booking_reviewed id w1).2).1 = 400.
Proof.
  intros Hw Htid Hvalid He Hne Hd Hid Hoid. calm w.
  assert (present (body_userEmail b)) as Hpe by (by exists e).
  rewrite (post_bookings_run _ _ _ _ _ Htid Hvalid Hpe Hd Hoid).
  cbv zeta. cbn [snd]. rewrite He. cbn [default from_option Datatypes.id].
  set (bk := {| tutorId := new_ObjectId tid; userEmail := e;
                bookedAt := default "" (body_date b); reviewed := false;
                booking_createdAt := now |}).
  set (s1 := {| tutors := tutors s;
                bookings := <[new_ObjectId id := bk]> (bookings s);
                users := users s;
                users_email_unique := users_email_unique s |}).
  assert (bookings s1 !! new_ObjectId id = Some bk) as Hbk
    by apply lookup_insert_eq.
  split; [|split].
  - intros rows Hrows.
    destruct (get_bookings_rows s1 e) as (rows' & Hrun & Hiff).
    rewrite Hrun in Hrows. injection Hrows as ->. split.
    + intros (row & Hrow & Hin)%list_elem_of_fmap.
      apply Hiff in Hin as (oid & b' & t & Hb' & _ & Ht & ->).
      simpl in Hrow. subst oid. rewrite Hbk in Hb'. injection Hb' as <-.
      simpl in Ht. eauto.
    + intros [t Ht]. apply list_elem_of_fmap.
      eexists. split; [|apply Hiff; by exists (new_ObjectId id), bk, t].
      done.
  - by rewrite (patch_booking_reviewed_fresh s1 id bk Hid Hbk eq_refl).
  - rewrite (patch_booking_reviewed_fresh s1 id bk Hid Hbk eq_refl).
    cbn [snd].
    erewrite patch_booking_reviewed_again; [done|done| |];
      [simpl; apply lookup_insert_eq|done].
Qed.


(** ** User routes *)

Lemma method_toLowerCase_Ok (v : JSValue JSNumber) r :
  method_toLowerCase v = Ok r → ∃ x, r = toLowerCase x.
Proof. destruct v; simpl; intros [= <-]; eauto. Qed.

Lemma head_scan_Some {D} (p : D → bool) (m : gmap N D) oid d :
  head (scan p m) = Some (oid, d) → m !! oid = Some d ∧ p d = true.
Proof.
  intros Hhead. apply elem_of_scan.
  destruct (scan p m) as [|x l]; [done|]. injection Hhead as ->.
  apply list_elem_of_here.
Qed.

Lemma get_user_by_email_cases w e :
  faults w = [] →
  let '(r, w') := get_user_by_email e w in
  w' = w
  ∧ ((∀ oid u, users (store w) !! oid = Some u → email u ≠ e) →
     reply_status r = 404)
  ∧ ((∃ oid u, users (store w) !! oid = Some u ∧ email u = e) →
     reply_status r = 200
     ∧ ∃ oid u, reply_body r = User_doc oid u
         ∧ users (store w) !! oid = Some u ∧ email u = e).
Proof.
  intros Hw. calm w. unfold get_user_by_email. run_all.
  destruct (head (scan (has_email e) (users s))) as [[oid u]|] eqn:Hhead;
    simpl.
  - apply head_scan_Some in Hhead as [Hu He%has_email_true].
    split; [done|]. split.
    + intros Hnone. by destruct (Hnone _ _ Hu).
    + intros _. split; [done|]. by exists oid, u.
  - apply head_None in Hhead. split; [done|]. split; [done|].
    intros (oid & u & Hu & He). exfalso.
    apply scan_nil with (oid := oid) (d := u) in Hhead; [|done].
    by apply has_email_false in Hhead.
Qed.

(** X7: [GET /users/:email] is answered 404 when no user has the email, and
    otherwise 200 with a stored user who has it; it changes nothing. *)
Theorem get_user_by_email_status w e :
  faults w = [] →
  let '(r, w') := get_user_by_email e w in
  w' = w
  ∧ ((∀ oid u, users (store w) !! oid = Some u → email u ≠ e) →
     reply_status r = 404)
  ∧ ((∃ oid u, users (store w) !! oid = Some u ∧ email u = e) →
     reply_status r = 200
     ∧ ∃ oid u, reply_body r = User_doc oid u
         ∧ users (store w) !! oid = Some u ∧ email u = e).
Proof. apply get_user_by_email_cases. Qed.

(** X8: A user that was just registered, with a role that is absent, falsy or
    a string, is the one [GET /users/:email] returns: the sent name and
    email, and as role the sent string in lower case, or "user" when the
    role was absent or falsy. *)
Theorem post_users_then_lookup w (b : UserBody JSNumber) e oid now :
  faults w = [] →
  present (body_name b) →
  body_email b = Some e → e ≠ "" →
  lowerable (body_role b) →
  (∀ k u, users (store w) !! k = Some u → email u ≠ e) →
  users (store w) !! oid = None →
  let w1 := (post_users b oid now w).2 in
  let r := (get_user_by_email e w1).1 in
  reply_status r = 200
  ∧ ∃ u, reply_body r = User_doc oid u
       ∧ Some (name u) = body_name b
       ∧ email u = e
       ∧ (∀ x, body_role b = Some (JStr x) → x ≠ "" → role u = toLowerCase x)
       ∧ (truthy_value (body_role b) = false → role u = "user").
Proof.
  intros Hw Hn He Hne Hrole Hnone Hoid. calm w.
  destruct (lowerable_role _ Hrole) as (r0 & Hr0 & Hstr & Hfalsy).
  rewrite (post_users_new _ _ _ _ _ _ Hn He Hne Hr0 Hnone Hoid).
  cbv zeta. cbn [snd].
  set (u0 := {| name := default "" (body_name b); email := e;
                role := r0; user_createdAt := now |}).
  set (s1 := {| tutors := tutors s; bookings := bookings s;
                users := <[oid := u0]> (users s);
                users_email_unique := users_email_unique s |}).
  pose proof (get_user_by_email_cases {| store := s1; faults := [] |} e
                eq_refl) as H.
  destruct (get_user_by_email e _) as [r w']. cbn [fst].
  destruct H as (_ & _ & H).
  destruct H as (H200 & oid' & u & Hbody & Hu & Hmail).
  { exists oid, u0. split; [apply lookup_insert_eq|done]. }
  split; [done|]. simpl in Hu. rewrite lookup_insert in Hu.
  case_decide as Hk.
  - injection Hu as <-. subst oid'. exists u0.
    split; [done|]. split; [|done].
    simpl. by destruct Hn as (x & -> & _).
  - by destruct (Hnone _ _ Hu).
Qed.

(** X9: Deleting a user frees the email: [DELETE /users/:id] is answered 200
    with a count of 1 and touches neither tutors nor bookings; when no other
    user had the email, the lookup by that email is then answered 404 and a
    new registration with it, whose role is absent, falsy or a string, is
    answered 201. *)
Theorem delete_user_then_register w id u (b : UserBody JSNumber) oid now :
  faults w = [] →
  ObjectId_isValid id = true →
  users (store w) !! new_ObjectId id = Some u →
  emails_unique (store w) →
  present (body_name b) →
  body_email b = Some (email u) → email u ≠ "" →
  lowerable (body_role b) →
  users (store w) !! oid = None →
  let '(r1, w1) := delete_user id w in
  status r1 = 200
  ∧ body r1 = Success_deleted 1
  ∧ users (store w1) = delete (new_ObjectId id) (users (store w))
  ∧ tutors (store w1) = tutors (store w)
  ∧ bookings (store w1) = bookings (store w)
  ∧ reply_status (get_user_by_email (email u) w1).1 = 404
  ∧ status (post_users b oid now w1).1 = 201.
Proof.
  intros Hw Hid Hu Huniq Hn He Hne Hrole Hoid. calm w.
  destruct (lowerable_role _ Hrole) as (r0 & Hr0 & _).
  rewrite (delete_user_run _ _ Hid). rewrite Hu.
  set (s1 := {| tutors := tutors s; bookings := bookings s;
                users := delete (new_ObjectId id) (users s);
                users_email_unique := users_email_unique s |}).
  assert (∀ k u', users s1 !! k = Some u' → email u' ≠ email u) as Hnone.
  { intros k u' Hu' Hmail. simpl in Hu'.
    apply lookup_delete_Some in Hu' as [Hk Hu'].
    destruct Hk. symmetry in Hmail. by apply (Huniq _ _ _ _ Hu Hu'). }
  repeat split.
  - pose proof (get_user_by_email_cases {| store := s1; faults := [] |}
                  (email u) eq_refl) as H.
    destruct (get_user_by_email _ _) as [r w']. cbn [fst].
    destruct H as (_ & H & _). by apply H.
  - rewrite (post_users_new s1 b (email u) r0 oid now Hn He Hne Hr0 Hnone);
      [done|].
    simpl. by apply lookup_delete_None; right.
Qed.

(** ** Invariants of the users collection *)

(** X10: Whatever the store does, [POST /users], [PATCH /users/:id] and
    [DELETE /users/:id] keep emails unique: the lookup before the insert does
    what the unique index would do. *)
Theorem user_routes_keep_emails_unique w (b : UserBody JSNumber) id
    (r : option (JSValue JSNumber)) oid now :
  emails_unique (store w) →
  emails_unique (store (post_users b oid now w).2)
  ∧ emails_unique (store (patch_user id r w).2)
  ∧ emails_unique (store (delete_user id w).2).
Proof.
  intros Huniq. destruct w as [s fs]. simpl in Huniq. split; [|split].
  - unfold post_users.
    destruct (negb (truthy (body_name b)) || negb (truthy (body_email b)));
      [done|].
    unfold try_catch, mbind, M_bind, mret, M_ret, findOne, insertOne,
      evaluate, call.
    destruct fs as [|[] fs]; simpl; try done.
    all: destruct (head (scan _ (users s))) as [x|] eqn:Hhead; simpl;
      [done|].
    all: apply head_None in Hhead.
    all: destruct (method_toLowerCase _) as [r0|]; simpl; [|done].
    all: try destruct fs as [|[] fs]; simpl; try done.
    all: destruct (users s !! oid) eqn:Hoid; simpl; [done|].
    all: destruct (negb (users_email_unique s) || _); simpl; [|done].
    all: intros k1 k2 u1 u2; simpl; rewrite !lookup_insert.
    all: repeat case_decide; subst; try done.
    all: intros Hu1 Hu2 Hmail; simplify_eq/=.
    all: try (by exfalso; eapply has_email_false;
                [eapply scan_nil; [exact Hhead|eassumption]|]).
    all: by eapply Huniq.
  - unfold patch_user.
    destruct (ObjectId_isValid id); simpl; [|done].
    destruct (truthy_value r); simpl; [|done].
    unfold try_catch, mbind, M_bind, mret, M_ret, updateOne, evaluate, call.
    destruct (method_toLowerCase _) as [r0|]; simpl; [|done].
    destruct fs as [|[] fs]; simpl; try done.
    all: destruct (users s !! new_ObjectId id) as [u|] eqn:Hu; simpl;
      [|done].
    all: intros k1 k2 u1 u2; simpl; rewrite !lookup_insert.
    all: repeat case_decide; subst; try done.
    all: intros Hu1 Hu2 Hmail; simplify_eq/=.
    all: by eapply Huniq.
  - unfold delete_user.
    destruct (ObjectId_isValid id); simpl; [|done].
    unfold try_catch, mbind, M_bind, mret, M_ret, deleteOne, call.
    destruct fs as [|[] fs]; simpl; try done.
    all: destruct (users s !! new_ObjectId id) as [u|] eqn:Hu; simpl;
      [|done].
    all: intros k1 k2 u1 u2; simpl.
    all: intros [_ Hu1]%lookup_delete_Some [_ Hu2]%lookup_delete_Some.
    all: by eapply Huniq.
Qed.

(** X11: Whatever the store does and whatever the role that is sent, the three
    routes keep every stored role a string that [toLowerCase] returned: a
    role reaches the store only through that method. *)
Theorem user_routes_keep_roles_lowercase w (b : UserBody JSNumber) id
    (r : option (JSValue JSNumber)) oid now :
  roles_lowercase (store w) →
  roles_lowercase (store (post_users b oid now w).2)
  ∧ roles_lowercase (store (patch_user id r w).2)
  ∧ roles_lowercase (store (delete_user id w).2).
Proof.
  intros Hlow. destruct w as [s fs]. simpl in Hlow. split; [|split].
  - unfold post_users.
    destruct (negb (truthy (body_name b)) || negb (truthy (body_email b)));
      [done|].
    unfold try_catch, mbind, M_bind, mret, M_ret, findOne, insertOne,
      evaluate, call.
    destruct fs as [|[] fs]; simpl; try done.
    all: destruct (head (scan _ (users s))) as [x|]; simpl; [done|].
    all: destruct (method_toLowerCase _) as [r0|] eqn:Hr0; simpl; [|done].
    all: apply method_toLowerCase_Ok in Hr0.
    all: try destruct fs as [|[] fs]; simpl; try done.
    all: destruct (users s !! oid) eqn:Hoid; simpl; [done|].
    all: destruct (negb (users_email_unique s) || _); simpl; [|done].
    all: intros k u; simpl; rewrite lookup_insert.
    all: case_decide; [|by apply Hlow].
    all: by intros [= <-].
  - unfold patch_user.
    destruct (ObjectId_isValid id); simpl; [|done].
    destruct (truthy_value r); simpl; [|done].
    unfold try_catch, mbind, M_bind, mret, M_ret, updateOne, evaluate, call.
    destruct (method_toLowerCase _) as [r0|] eqn:Hr0; simpl; [|done].
    apply method_toLowerCase_Ok in Hr0.
    destruct fs as [|[] fs]; simpl; try done.
    all: destruct (users s !! new_ObjectId id) as [u0|] eqn:Hu; simpl;
      [|done].
    all: intros k u; simpl; rewrite lookup_insert.
    all: case_decide; [|by apply Hlow].
    all: by intros [= <-].
  - unfold delete_user.
    destruct (ObjectId_isValid id); simpl; [|done].
    unfold try_catch, mbind, M_bind, mret, M_ret, deleteOne, call.
    destruct fs as [|[] fs]; simpl; try done.
    all: destruct (users s !! new_ObjectId id) as [u0|] eqn:Hu; simpl;
      [|done].
    all: intros k u; simpl; intros [_ Hk]%lookup_delete_Some.
    all: by eapply Hlow.
Qed.

(** ** The review workflow under any failure schedule *)

(** The store that [PATCH /bookings/reviewed/:id] leaves is the one it
    found, or the one with the booking marked, or the one with the booking
    marked and the tutor's counter raised. *)
Lemma patch_booking_reviewed_stores w id :
  let s := store w in
  let s' := store (patch_booking_reviewed id w).2 in
  s' = s
  ∨ ∃ b, bookings s !! new_ObjectId id = Some b ∧ reviewed b = false
      ∧ (s' = {| tutors := tutors s;
                 bookings := <[new_ObjectId id := apply_update set_reviewed_true b]>
                               (bookings s);
                 users := users s;
                 users_email_unique := users_email_unique s |}
         ∨ s' = reviewed_store s (new_ObjectId id) b).
Proof.
  destruct w as [s fs]. cbv zeta. cbn [store]. unfold patch_booking_reviewed.
  destruct (ObjectId_isValid id); simpl; [|by left].
  unfold try_catch, mbind, M_bind, mret, M_ret, findOne, updateOne, call.
  destruct fs as [|[] fs]; simpl; try (by left).
  all: destruct (bookings s !! new_ObjectId id) as [b|] eqn:Hb; simpl;
    [|by left].
  all: destruct (reviewed b) eqn:Hr; simpl; [by left|].
  all: try destruct fs as [|[] fs]; simpl; rewrite ?Hb; simpl.
  all: try destruct fs as [|[] fs]; simpl.
  all: try (by left).
  all: destruct (tutors s !! tutorId b) as [t|] eqn:Ht; simpl.
  all: right; exists b; split; [done|]; split; [done|].
  all: try (by left).
  all: right; unfold reviewed_store; by rewrite Ht.
Qed.

(** X12: Whatever the id and whatever the store does, the route adds and removes
    no document; a booking keeps its tutor, email and date and, once
    reviewed, stays reviewed; a tutor's counter stays or grows by one; users
    are untouched. *)
Theorem patch_booking_reviewed_monotone w id :
  let s := store w in
  let s' := store (patch_booking_reviewed id w).2 in
  users s' = users s
  ∧ dom (bookings s') = dom (bookings s)
  ∧ dom (tutors s') = dom (tutors s)
  ∧ (∀ oid b, bookings s !! oid = Some b →
       ∃ b', bookings s' !! oid = Some b'
         ∧ tutorId b' = tutorId b ∧ userEmail b' = userEmail b
         ∧ bookedAt b' = bookedAt b
         ∧ (reviewed b = true → reviewed b' = true))
  ∧ (∀ oid t, tutors s !! oid = Some t →
       ∃ t', tutors s' !! oid = Some t'
         ∧ (review t ≤ review t' ≤ review t + 1)%Z).
Proof.
  cbv zeta.
  destruct (patch_booking_reviewed_stores w id)
    as [-> | (b0 & Hb0 & Hr0 & [-> | ->])].
  - repeat split; try done.
    + intros oid b Hb. by exists b.
    + intros oid t Ht. exists t. split; [done|lia].
  - simpl. repeat split; try done.
    + apply dom_insert_lookup_L. by exists b0.
    + intros oid b Hb. rewrite lookup_insert. case_decide as Hk.
      * subst oid. rewrite Hb0 in Hb. injection Hb as <-.
        eexists. split; [done|]. done.
      * by exists b.
    + intros oid t Ht. exists t. split; [done|lia].
  - unfold reviewed_store. simpl. repeat split; try done.
    + apply dom_insert_lookup_L. by exists b0.
    + destruct (tutors (store w) !! tutorId b0) eqn:Ht0; [|done].
      apply dom_insert_lookup_L. eauto.
    + intros oid b Hb. rewrite lookup_insert. case_decide as Hk.
      * subst oid. rewrite Hb0 in Hb. injection Hb as <-.
        eexists. split; [done|]. done.
      * by exists b.
    + intros oid t Ht.
      destruct (tutors (store w) !! tutorId b0) as [t0|] eqn:Ht0.
      * rewrite lookup_insert. case_decide as Hk.
        -- subst oid. rewrite Ht0 in Ht. injection Ht as <-.
           eexists. split; [done|]. simpl. lia.
        -- exists t. split; [done|lia].
      * exists t. split; [done|lia].
Qed.

(** ** GET /dashboard/stats *)

Lemma length_scan {D} (p : D → bool) (m : gmap N D) :
  length (scan p m) = size (filter (λ kd, p kd.2 = true) m).
Proof.
  unfold scan. induction m as [|k d m Hk IH] using map_ind.
  - by rewrite map_to_list_empty, map_filter_empty, map_size_empty.
  - rewrite map_to_list_insert by done. rewrite filter_cons. simpl.
    rewrite map_filter_insert. simpl.
    destruct (decide (p d = true)); simpl.
    + rewrite map_size_insert_None; [by rewrite IH|].
      apply map_lookup_filter_None. by left.
    + by rewrite delete_id.
Qed.

Lemma pending_scan (m : gmap N Booking) :
  length (scan (λ b, negb (reviewed b)) m)
  = size (filter (λ kb, reviewed kb.2 = false) m).
Proof.
  rewrite length_scan. f_equal. apply map_filter_ext.
  intros k b _. simpl. by destruct (reviewed b).
Qed.

Lemma dashboard_stats_run s :
  dashboard_stats {| store := s; faults := [] |}
  = (reply_send (Stats_doc {|
       totalTutors := size (tutors s);
       totalBookings := size (bookings s);
       totalUsers := size (users s);
       pendingReviews := size (pending s) |}),
     {| store := s; faults := [] |}).
Proof.
  unfold dashboard_stats. run_all. unfold pending. by rewrite pending_scan.
Qed.

(** X13: The dashboard reports the sizes of the three collections and the number
    of bookings that are not reviewed, which is at most the number of
    bookings; it changes nothing.  When any of its four counts fails, the
    answer is 500. *)
Theorem dashboard_stats_counts w :
  (faults w = [] →
   let '(r, w') := dashboard_stats w in
   w' = w
   ∧ reply_status r = 200
   ∧ ∃ st, reply_body r = Stats_doc st
       ∧ totalTutors st = size (tutors (store w))
       ∧ totalBookings st = size (bookings (store w))
       ∧ totalUsers st = size (users (store w))
       ∧ pendingReviews st = size (pending (store w))
       ∧ pendingReviews st ≤ totalBookings st)
  ∧ (∀ i, i < 4 → faults w !! i = Some true →
     reply_status (dashboard_stats w).1 = 500
     ∧ store (dashboard_stats w).2 = store w).
Proof.
  split.
  - intros Hw. calm w. rewrite dashboard_stats_run. simpl.
    repeat split. eexists. repeat split. simpl. apply map_size_filter.
  - intros i Hi Hfault. destruct w as [s fs]. simpl in Hfault.
    unfold dashboard_stats, try_catch_reply, mbind, M_bind, Promise_all4,
      countDocuments, call. simpl.
    destruct fs as [|[] [|[] [|[] [|[] fs]]]]; simpl;
      destruct i as [|[|[|[|i]]]]; simpl in Hfault; try done; lia.
Qed.

(** X14: The counters follow the writes: a successful review lowers
    pendingReviews by one, and a new booking raises totalBookings and
    pendingReviews by one each; the other counters stay. *)
Theorem dashboard_stats_after_writes w id (b : Booking) (bb : BookingBody)
    tid oid now st :
  faults w = [] →
  reply_body (dashboard_stats w).1 = Stats_doc st →
  (ObjectId_isValid id = true →
   bookings (store w) !! new_ObjectId id = Some b → reviewed b = false →
   reply_body (dashboard_stats (patch_booking_reviewed id w).2).1
   = Stats_doc {| totalTutors := totalTutors st;
                  totalBookings := totalBookings st;
                  totalUsers := totalUsers st;
                  pendingReviews := pendingReviews st - 1 |}
   ∧ 0 < pendingReviews st)
  ∧ (body_tutorId bb = Some tid → ObjectId_isValid tid = true →
     present (body_userEmail bb) → present (body_date bb) →
     bookings (store w) !! oid = None →
     reply_body (dashboard_stats (post_bookings bb oid now w).2).1
     = Stats_doc {| totalTutors := totalTutors st;
                    totalBookings := totalBookings st + 1;
                    totalUsers := totalUsers st;
                    pendingReviews := pendingReviews st + 1 |}).
Proof.
  intros Hw Hst. calm w. rewrite dashboard_stats_run in Hst.
  injection Hst as <-. simpl. split.
  - intros Hid Hb Hr.
    rewrite (patch_booking_reviewed_fresh _ _ _ Hid Hb Hr). cbn [snd].
    rewrite dashboard_stats_run. unfold reviewed_store, pending. simpl.
    assert (size (filter (λ kb : N * Booking, reviewed kb.2 = false)
                    (bookings s)) ≠ 0) as Hpos.
    { apply map_size_non_empty_iff. intros Hempty.
      assert (filter (λ kb : N * Booking, reviewed kb.2 = false) (bookings s)
              !! new_ObjectId id = Some b) as Hin
        by by apply map_lookup_filter_Some.
      by rewrite Hempty in Hin. }
    split; [|lia]. f_equal. f_equal.
    + destruct (tutors s !! tutorId b) eqn:Ht; [|done].
      apply map_size_insert_Some. eauto.
    + apply map_size_insert_Some. eauto.
    + rewrite map_filter_insert_False by (simpl; done).
      rewrite map_filter_delete, map_size_delete_Some; [lia|].
      exists b. by apply map_lookup_filter_Some.
  - intros Htid Hvalid He Hd Hoid.
    rewrite (post_bookings_run _ _ _ _ _ Htid Hvalid He Hd Hoid). cbn [snd].
    rewrite dashboard_stats_run. unfold pending. simpl. f_equal. f_equal.
    + rewrite map_size_insert_None by done. lia.
    + rewrite map_filter_insert_True by done.
      rewrite map_size_insert_None; [lia|].
      apply map_lookup_filter_None. by left.
Qed.

(** ** Routes of the older server file *)

(** X15: [PATCH /tutors/review/:id] of the older file is answered 404, with the
    store unchanged, when no tutor has the id; otherwise it is answered 200
    and raises that tutor's counter, and no other, by one; bookings are
    untouched. *)
Theorem patch_tutor_review_part_000_status w id :
  faults w = [] →
  ObjectId_isValid id = true →
  let '(r, w') := patch_tutor_review_part_000 id w in
  bookings (store w') = bookings (store w)
  ∧ match tutors (store w) !! new_ObjectId id with
    | None => status r = 404 ∧ store w' = store w
    | Some t =>
        status r = 200
        ∧ review <$> tutors (store w') !! new_ObjectId id
          = Some (review t + 1)%Z
        ∧ ∀ oid, oid ≠ new_ObjectId id →
            tutors (store w') !! oid = tutors (store w) !! oid
    end.
Proof.
  intros Hw Hid. calm w. unfold patch_tutor_review_part_000. rewrite Hid.
  run_all. destruct (tutors s !! new_ObjectId id) as [t|] eqn:Ht; simpl.
  - split; [done|]. split; [done|]. rewrite lookup_insert_eq.
    split; [done|]. intros oid Hoid. by rewrite lookup_insert_ne.
  - done.
Qed.

(** X16: [PATCH /bookings/reviewed/:id] of the older file has no guard: on a
    stored booking it is answered 200 whether or not the booking was
    reviewed before, a repeated request is answered 200 again and changes
    nothing more, and the tutors collection is never touched. *)
Theorem patch_booking_reviewed_part_000_no_guard w id (b : Booking) :
  faults w = [] →
  ObjectId_isValid id = true →
  bookings (store w) !! new_ObjectId id = Some b →
  let '(r1, w1) := patch_booking_reviewed_part_000 id w in
  let '(r2, w2) := patch_booking_reviewed_part_000 id w1 in
  status r1 = 200
  ∧ reviewed <$> bookings (store w1) !! new_ObjectId id = Some true
  ∧ tutors (store w1) = tutors (store w)
  ∧ status r2 = 200
  ∧ store w2 = store w1.
Proof.
  intros Hw Hid Hb. calm w. unfold patch_booking_reviewed_part_000.
  rewrite Hid. run_all. rewrite Hb. simpl. run_all.
  rewrite lookup_insert_eq. simpl.
  repeat split. by rewrite insert_insert_eq.
Qed.

(** X17: [DELETE /bookings/:id] of the older file is answered 404, with the store
    unchanged, when no booking has the id, and otherwise 200 with the
    booking removed; tutors are untouched. *)
Theorem delete_booking_part_000_status w id :
  faults w = [] →
  ObjectId_isValid id = true →
  let '(r, w') := delete_booking_part_000 id w in
  tutors (store w') = tutors (store w)
  ∧ bookings (store w') = delete (new_ObjectId id) (bookings (store w))
  ∧ match bookings (store w) !! new_ObjectId id with
    | None => status r = 404 ∧ store w' = store w
    | Some _ => status r = 200
    end.
Proof.
  intros Hw Hid. calm w. unfold delete_booking_part_000. rewrite Hid.
  run_all. destruct (bookings s !! new_ObjectId id) eqn:Hb; simpl.
  - done.
  - by rewrite delete_id.
Qed.

(** ** The listing routes *)

(** X18: [GET /tutors] and [GET /users] list every stored document once, with
    its id, and as many documents as the dashboard counts; they change
    nothing. *)
Theorem listing_routes_list_the_store w :
  faults w = [] →
  (let '(r, w') := get_tutors w in
   w' = w ∧ reply_status r = 200
   ∧ ∃ l, reply_body r = Tutor_list l
       ∧ (∀ oid t, (oid, t) ∈ l ↔ tutors (store w) !! oid = Some t)
       ∧ NoDup l.*1
       ∧ length l = size (tutors (store w)))
  ∧ (let '(r, w') := get_users w in
     w' = w ∧ reply_status r = 200
     ∧ ∃ l, reply_body r = User_list l
         ∧ (∀ oid u, (oid, u) ∈ l ↔ users (store w) !! oid = Some u)
         ∧ NoDup l.*1
         ∧ length l = size (users (store w))).
Proof.
  intros Hw. calm w. unfold get_tutors, get_users. run_all.
  split; (split; [done|]; split; [done|]; eexists; split; [done|]).
  all: split; [intros oid x; apply elem_of_map_to_list|].
  all: split; [apply NoDup_fst_map_to_list|apply length_map_to_list].
Qed.

(** X19: When no storage call fails and the generated id is new, [POST /users]
    is answered 400, 409, 201 or 500, and it is answered 500 exactly when
    the request passes validation, the email is new, and the role is truthy
    and not a string: the unique index on email, present or not, never
    rejects the insert. *)
Theorem post_users_500_only_for_role w (b : UserBody JSNumber) oid now :
  faults w = [] →
  users (store w) !! oid = None →
  let r := (post_users b oid now w).1 in
  (status r = 400 ∨ status r = 409 ∨ status r = 201 ∨ status r = 500)
  ∧ (status r = 500 ↔
       present (body_name b) ∧ present (body_email b)
       ∧ (∀ k u, users (store w) !! k = Some u →
            Some (email u) ≠ body_email b)
       ∧ ¬ lowerable (body_role b)).
Proof.
  intros Hw Hoid. calm w. cbv zeta.
  destruct (truthy (body_name b)) eqn:Hn.
  2:{ unfold post_users. rewrite Hn. simpl. split; [by left|].
      split; [done|]. intros (Hn'%truthy_present & _). by rewrite Hn in Hn'. }
  destruct (truthy (body_email b)) eqn:He.
  2:{ unfold post_users. rewrite Hn, He. simpl. split; [by left|].
      split; [done|]. intros (_ & He'%truthy_present & _).
      by rewrite He in He'. }
  apply truthy_present in Hn. pose proof He as Hpe%truthy_present.
  destruct Hpe as (e & Hbe & Hne).
  destruct (scan (has_email e) (users s)) as [|[k u] l] eqn:Hscan.
  - assert (∀ k u, users s !! k = Some u → email u ≠ e) as Hnew.
    { intros k u Hu. by apply has_email_false, (proj1 (scan_nil _ _) Hscan k). }
    destruct (lowerable_cases (body_role b)) as [Hrole|Hrole].
    + destruct (lowerable_role _ Hrole) as (r0 & Hr0 & _).
      rewrite (post_users_new _ _ _ _ _ _ Hn Hbe Hne Hr0 Hnew Hoid). simpl.
      split; [by right; right; left|]. split; [done|].
      by intros (_ & _ & _ & ?).
    + rewrite (post_users_role_not_a_string _ _ _ _ _ Hn Hbe Hne Hrole Hnew).
      simpl. split; [by right; right; right|]. split; [|done]. intros _.
      split; [done|]. split; [by exists e|]. split; [|done].
      intros k u Hu. rewrite Hbe. intros [= Hmail]. by apply (Hnew _ _ Hu).
  - assert ((k, u) ∈ scan (has_email e) (users s)) as Hin
      by (rewrite Hscan; apply list_elem_of_here).
    apply elem_of_scan in Hin as [Hu Hmail%has_email_true].
    rewrite (post_users_taken _ _ _ _ _ _ _ Hn Hbe Hne Hu Hmail). simpl.
    split; [by right; left|]. split; [done|].
    intros (_ & _ & Hnew & _). destruct (Hnew _ _ Hu). by rewrite Hbe, Hmail.
Qed.

End MoreProperties.

(** * The further properties at the sample data *)


Lemma first_call_fails_is_500_witness :
  status (delete_tutor Sample.ana_id Sample.world_first_call_fails).1 = 500
  ∧ tutors (store (delete_tutor Sample.ana_id Sample.world_first_call_fails).2)
      !! new_ObjectId Sample.ana_id = Some Sample.ana
  ∧ status (post_users Sample.user_body 7%N 0 Sample.world_first_call_fails).1
    = 500
  ∧ reply_status (health Sample.world_first_call_fails).1 = 500
  ∧ reply_body (health Sample.world_first_call_fails).1 = Health_doc false.
Proof.
  assert (present (Some "Ben") ∧ present (Some "German")
          ∧ present (Some "lee@example.com") ∧ present (Some "2025-04-01")
          ∧ present (Some "Lee")) as (Hn & Hl & He & Hd & Hu)
    by (repeat split; apply truthy_present; reflexivity).
  assert (non_null (Some (JNum 25%Z))) as Hp by (by exists (JNum 25%Z)).
  pose proof (first_call_fails_is_500 Sample.to_number
                Sample.world_first_call_fails Sample.ana_id "kim@example.com"
                [] Sample.tutor_body Sample.booking_body Sample.ana_id
                Sample.user_body "ADMIN" 7%N 0%Z eq_refl eq_refl Hn Hl Hp
                eq_refl eq_refl He Hd Hu He ltac:(discriminate)) as H.
  cbv zeta in H.
  destruct H as (_ & _ & [H1 H2] & _ & _ & _ & [H3 _] & _ & _ & _ & _ & _ & _
                 & [H4 _] & H5).
  split; [exact H1|]. split; [rewrite H2; reflexivity|].
  split; [exact H3|]. split; [exact H4|exact H5].
Defined.

Lemma post_bookings_status_witness :
  (let '(r, w') := post_bookings Sample.booking_body_ben
                     (new_ObjectId Sample.new_booking_id) 1700000006000
                     Sample.world0 in
   status r = 201
   ∧ reviewed <$> bookings (store w') !! new_ObjectId Sample.new_booking_id
     = Some false)
  ∧ status (post_bookings
              {| body_tutorId := Some "ana"; body_userEmail := Some "a@b.c";
                 body_date := Some "2025-04-01" |}
              7%N 0 Sample.world0).1 = 400
  ∧ status (post_bookings
              {| body_tutorId := Some Sample.ana_id; body_userEmail := None;
                 body_date := Some "2025-04-01" |}
              7%N 0 Sample.world0).1 = 400.
Proof.
  split; [|split].
  - assert (present (Some "lee@example.com") ∧ present (Some "2025-04-01"))
      as [He Hd] by (split; apply truthy_present; reflexivity).
    pose proof (proj1 (post_bookings_status Sample.world0
                         Sample.booking_body_ben
                         (new_ObjectId Sample.new_booking_id) 1700000006000)
                  Sample.ben_id eq_refl eq_refl He Hd eq_refl eq_refl) as H.
    destruct (post_bookings _ _ _ _) as [r w'].
    destruct H as (H1 & _ & bk & Hbk & _ & Hr & _).
    split; [exact H1|]. rewrite Hbk, lookup_insert_eq. simpl. by rewrite Hr.
  - exact (proj1 (proj2 (proj2 (post_bookings_status Sample.world0
                   {| body_tutorId := Some "ana"; body_userEmail := Some "a@b.c";
                      body_date := Some "2025-04-01" |} 7%N 0%Z))
                   "ana" eq_refl eq_refl)).
  - assert (¬ present (@None string)) as Hnone
      by (apply truthy_absent; reflexivity).
    pose proof (proj1 (proj2 (post_bookings_status Sample.world0
                  {| body_tutorId := Some Sample.ana_id; body_userEmail := None;
                     body_date := Some "2025-04-01" |} 7%N 0%Z))
                  (or_intror (or_introl Hnone))) as H.
    by rewrite H.
Defined.

Lemma post_tutors_then_get_witness :
  let '(r1, w1) := post_tutors Sample.to_number Sample.tutor_body
                     (new_ObjectId Sample.ben_id) 1700000005000
                     Sample.world0 in
  let '(r2, w2) := get_tutor Sample.ben_id w1 in
  status r1 = 201
  ∧ status r2 = 200
  ∧ ∃ t, body r2 = Send_tutor (new_ObjectId Sample.ben_id) t
       ∧ tutorName t = "Ben" ∧ price t = 25%Z ∧ review t = 0%Z.
Proof.
  assert (present (Some "Ben") ∧ present (Some "German")) as [Hn Hl]
    by (split; apply truthy_present; reflexivity).
  assert (non_null (Some (JNum 25%Z))) as Hp by (by exists (JNum 25%Z)).
  pose proof (post_tutors_then_get Sample.to_number Sample.world0
                Sample.tutor_body Sample.ben_id 1700000005000 eq_refl eq_refl
                Hn Hl Hp eq_refl) as H.
  destruct (post_tutors _ _ _ _ _) as [r1 w1].
  destruct (get_tutor _ _) as [r2 w2].
  destruct H as (H1 & H2 & t & Hbody & Hname & _ & Hprice & Hrev & _).
  split; [exact H1|]. split; [exact H2|]. exists t.
  split; [exact Hbody|]. split; [|by split].
  by injection Hname.
Defined.

Lemma delete_tutor_then_witness :
  let w1 := (delete_tutor Sample.ana_id Sample.world0).2 in
  status (get_tutor Sample.ana_id w1).1 = 404
  ∧ body (delete_tutor Sample.ana_id w1).1 = Success_deleted 0
  ∧ bookings (store w1) !! new_ObjectId Sample.booking1_id
    = Some Sample.booking1
  ∧ body (get_bookings "kim@example.com" w1).1 = Send_bookings [].
Proof.
  pose proof (delete_tutor_then Sample.world0 Sample.ana_id "kim@example.com"
                eq_refl eq_refl) as H.
  cbv zeta in *. destruct H as (H1 & H2 & H3 & _).
  split; [exact H1|]. split; [exact H2|]. split.
  - rewrite H3. reflexivity.
  - vm_compute. reflexivity.
Defined.

Lemma post_bookings_then_witness :
  let w1 := (post_bookings Sample.booking_body
               (new_ObjectId Sample.new_booking_id) 1700000006000
               Sample.world0).2 in
  status (patch_booking_reviewed Sample.new_booking_id w1).1 = 200
  ∧ status (patch_booking_reviewed Sample.new_booking_id
              (patch_booking_reviewed Sample.new_booking_id w1).2).1 = 400.
Proof.
  assert (present (Some "2025-04-01")) as Hd
    by (apply truthy_present; reflexivity).
  exact (proj2 (post_bookings_then Sample.world0 Sample.booking_body
                  Sample.ana_id "lee@example.com" Sample.new_booking_id
                  1700000006000 eq_refl eq_refl eq_refl eq_refl
                  ltac:(discriminate) Hd eq_refl eq_refl)).
Defined.

Lemma get_user_by_email_status_witness :
  reply_status (get_user_by_email "kim@example.com" Sample.world0).1 = 200
  ∧ reply_status (get_user_by_email "lee@example.com" Sample.world0).1 = 404.
Proof.
  split.
  - pose proof (get_user_by_email_status Sample.world0 "kim@example.com"
                  eq_refl) as H.
    destruct (get_user_by_email _ _) as [r w']. destruct H as (_ & _ & H).
    apply H. exists (new_ObjectId Sample.user1_id), Sample.kim.
    split; reflexivity.
  - pose proof (get_user_by_email_status Sample.world0 "lee@example.com"
                  eq_refl) as H.
    destruct (get_user_by_email _ _) as [r w']. destruct H as (_ & H & _).
    apply H. intros k u Hu. apply has_email_false. revert k u Hu.
    apply scan_nil. vm_compute. reflexivity.
Defined.

Lemma sample_no_lee :
  ∀ k u, users (store Sample.world0) !! k = Some u
         → email u ≠ "lee@example.com".
Proof.
  intros k u Hu. apply has_email_false. revert k u Hu.
  apply scan_nil. vm_compute. reflexivity.
Qed.

Lemma sample_emails_unique : emails_unique Sample.store0.
Proof.
  intros k1 k2 u1 u2 H1 H2 _. unfold Sample.store0 in *. simpl in *.
  apply lookup_singleton_Some in H1 as [<- _].
  by apply lookup_singleton_Some in H2 as [<- _].
Qed.

Lemma sample_roles_lowercase : roles_lowercase Sample.store0.
Proof.
  intros k u Hu. unfold Sample.store0 in *. simpl in *.
  apply lookup_singleton_Some in Hu as [_ <-]. by exists "user".
Qed.

Lemma sample_lowerable :
  lowerable (body_role Sample.user_body)
  ∧ lowerable (body_role Sample.kim_again)
  ∧ ¬ lowerable (body_role Sample.user_body_role_true).
Proof.
  split; [right; by exists "Admin"|]. split; [by left|].
  by intros [?|[? ?]].
Qed.

Lemma post_users_then_lookup_witness :
  let w1 := (post_users Sample.user_body 7%N 1700000003000 Sample.world0).2 in
  let r := (get_user_by_email "lee@example.com" w1).1 in
  reply_status r = 200
  ∧ ∃ u, reply_body r = User_doc 7%N u ∧ name u = "Lee" ∧ role u = "admin".
Proof.
  assert (present (Some "Lee")) as Hn by (apply truthy_present; reflexivity).
  pose proof (post_users_then_lookup Sample.world0 Sample.user_body
                "lee@example.com" 7%N 1700000003000 eq_refl Hn eq_refl
                ltac:(discriminate) (proj1 sample_lowerable) sample_no_lee
                eq_refl) as H.
  cbv zeta in *. destruct H as (H1 & u & Hbody & Hname & _ & Hrole & _).
  split; [exact H1|]. exists u. split; [exact Hbody|].
  split; [by injection Hname|].
  exact (Hrole "Admin" eq_refl ltac:(discriminate)).
Defined.

Lemma delete_user_then_register_witness :
  let '(r1, w1) := delete_user Sample.user1_id Sample.world0 in
  status r1 = 200
  ∧ body r1 = Success_deleted 1
  ∧ reply_status (get_user_by_email "kim@example.com" w1).1 = 404
  ∧ status (post_users Sample.kim_again 9%N 1700000007000 w1).1 = 201.
Proof.
  assert (present (Some "Kim K")) as Hn by (apply truthy_present; reflexivity).
  pose proof (delete_user_then_register Sample.world0 Sample.user1_id
                Sample.kim Sample.kim_again 9%N 1700000007000 eq_refl eq_refl
                eq_refl sample_emails_unique Hn eq_refl ltac:(discriminate)
                (proj1 (proj2 sample_lowerable)) eq_refl) as H.
  destruct (delete_user _ _) as [r1 w1].
  destruct H as (H1 & H2 & _ & _ & _ & H3 & H4).
  split; [exact H1|]. split; [exact H2|]. split; [exact H3|exact H4].
Defined.

Lemma user_routes_keep_emails_unique_witness :
  emails_unique (store (post_users Sample.kim_again 9%N 1700000007000
                          Sample.world0).2)
  ∧ emails_unique (store (post_users Sample.user_body 9%N 1700000007000
                            Sample.world0).2).
Proof.
  split.
  - exact (proj1 (user_routes_keep_emails_unique Sample.world0
                    Sample.kim_again "" None 9%N 1700000007000
                    sample_emails_unique)).
  - exact (proj1 (user_routes_keep_emails_unique Sample.world0
                    Sample.user_body "" None 9%N 1700000007000
                    sample_emails_unique)).
Defined.

Lemma user_routes_keep_roles_lowercase_witness :
  roles_lowercase (store (post_users Sample.user_body 9%N 1700000007000
                            Sample.world0).2)
  ∧ roles_lowercase (store (patch_user Sample.user1_id (Some (JStr "TUTOR"))
                              Sample.world0).2).
Proof.
  split.
  - exact (proj1 (user_routes_keep_roles_lowercase Sample.world0
                    Sample.user_body Sample.user1_id (Some (JStr "TUTOR")) 9%N
                    1700000007000 sample_roles_lowercase)).
  - exact (proj1 (proj2 (user_routes_keep_roles_lowercase Sample.world0
                    Sample.user_body Sample.user1_id (Some (JStr "TUTOR")) 9%N
                    1700000007000 sample_roles_lowercase))).
Defined.

Lemma dashboard_stats_counts_witness :
  reply_body (dashboard_stats Sample.world0).1
  = Stats_doc {| totalTutors := 1; totalBookings := 2; totalUsers := 1;
                 pendingReviews := 2 |}
  ∧ reply_status (dashboard_stats Sample.world_third_call_fails).1 = 500.
Proof.
  split.
  - pose proof (proj1 (dashboard_stats_counts Sample.world0) eq_refl) as H.
    destruct (dashboard_stats _) as [r w'].
    destruct H as (_ & _ & st & Hbody & H1 & H2 & H3 & H4 & _).
    cbn [fst]. rewrite Hbody. destruct st as [a b c d].
    cbn [totalTutors totalBookings totalUsers pendingReviews] in *.
    vm_compute in H1, H2, H3, H4. by subst a b c d.
  - exact (proj1 (proj2 (dashboard_stats_counts Sample.world_third_call_fails)
                    2 ltac:(lia) eq_refl)).
Defined.

Lemma dashboard_stats_after_writes_witness :
  reply_body (dashboard_stats
                (patch_booking_reviewed Sample.booking1_id Sample.world0).2).1
  = Stats_doc {| totalTutors := 1; totalBookings := 2; totalUsers := 1;
                 pendingReviews := 1 |}
  ∧ reply_body (dashboard_stats
                  (post_bookings Sample.booking_body 7%N 1700000006000
                     Sample.world0).2).1
    = Stats_doc {| totalTutors := 1; totalBookings := 3; totalUsers := 1;
                   pendingReviews := 3 |}.
Proof.
  assert (present (Some "lee@example.com") ∧ present (Some "2025-04-01"))
    as [He Hd] by (split; apply truthy_present; reflexivity).
  pose proof (dashboard_stats_after_writes Sample.world0 Sample.booking1_id
                Sample.booking1 Sample.booking_body Sample.ana_id 7%N
                1700000006000
                {| totalTutors := 1; totalBookings := 2; totalUsers := 1;
                   pendingReviews := 2 |}
                eq_refl ltac:(vm_compute; reflexivity)) as [H1 H2].
  split.
  - exact (proj1 (H1 eq_refl eq_refl eq_refl)).
  - exact (H2 eq_refl eq_refl He Hd eq_refl).
Defined.

Lemma patch_tutor_review_part_000_status_witness :
  (let '(r, w') := patch_tutor_review_part_000 Sample.ana_id Sample.world0 in
   status r = 200
   ∧ review <$> tutors (store w') !! new_ObjectId Sample.ana_id = Some 4%Z)
  ∧ (let '(r, w') := patch_tutor_review_part_000 Sample.ben_id Sample.world0 in
     status r = 404 ∧ store w' = store Sample.world0).
Proof.
  split.
  - pose proof (patch_tutor_review_part_000_status Sample.world0 Sample.ana_id
                  eq_refl eq_refl) as H.
    destruct (patch_tutor_review_part_000 _ _) as [r w'].
    destruct H as [_ H]. exact (conj (proj1 H) (proj1 (proj2 H))).
  - pose proof (patch_tutor_review_part_000_status Sample.world0 Sample.ben_id
                  eq_refl eq_refl) as H.
    destruct (patch_tutor_review_part_000 _ _) as [r w'].
    destruct H as [_ H]. exact H.
Defined.

Lemma patch_booking_reviewed_part_000_no_guard_witness :
  let '(r1, w1) := patch_booking_reviewed_part_000 Sample.booking1_id
                     Sample.world0 in
  let '(r2, w2) := patch_booking_reviewed_part_000 Sample.booking1_id w1 in
  status r1 = 200
  ∧ review <$> tutors (store w1) !! new_ObjectId Sample.ana_id = Some 3%Z
  ∧ status r2 = 200
  ∧ store w2 = store w1.
Proof.
  pose proof (patch_booking_reviewed_part_000_no_guard Sample.world0
                Sample.booking1_id Sample.booking1 eq_refl eq_refl eq_refl)
    as H.
  destruct (patch_booking_reviewed_part_000 _ Sample.world0) as [r1 w1].
  destruct (patch_booking_reviewed_part_000 _ w1) as [r2 w2].
  destruct H as (H1 & _ & H2 & H3 & H4).
  split; [exact H1|]. split; [|exact (conj H3 H4)].
  rewrite H2. reflexivity.
Defined.

Lemma delete_booking_part_000_status_witness :
  (let '(r, w') := delete_booking_part_000 Sample.booking1_id Sample.world0 in
   status r = 200
   ∧ bookings (store w') !! new_ObjectId Sample.booking1_id = None)
  ∧ (let '(r, w') := delete_booking_part_000 Sample.new_booking_id
                       Sample.world0 in
     status r = 404 ∧ store w' = store Sample.world0).
Proof.
  split.
  - pose proof (delete_booking_part_000_status Sample.world0
                  Sample.booking1_id eq_refl eq_refl) as H.
    destruct (delete_booking_part_000 _ _) as [r w'].
    destruct H as (_ & Hb & H). split; [exact H|].
    rewrite Hb. apply lookup_delete_eq.
  - pose proof (delete_booking_part_000_status Sample.world0
                  Sample.new_booking_id eq_refl eq_refl) as H.
    destruct (delete_booking_part_000 _ _) as [r w'].
    destruct H as (_ & _ & H). exact H.
Defined.

Lemma listing_routes_list_the_store_witness :
  reply_body (get_tutors Sample.world0).1
  = Tutor_list [(new_ObjectId Sample.ana_id, Sample.ana)]
  ∧ reply_status (get_users Sample.world0).1 = 200.
Proof.
  pose proof (listing_routes_list_the_store Sample.world0 eq_refl) as [H1 H2].
  split.
  - vm_compute. reflexivity.
  - destruct (get_users _) as [r w']. exact (proj1 (proj2 H2)).
Defined.

Lemma post_users_500_only_for_role_witness :
  status (post_users Sample.user_body_role_true 9%N 1700000007000
            Sample.world0).1 = 500
  ∧ status (post_users Sample.user_body 9%N 1700000007000 Sample.world0).1
    ≠ 500.
Proof.
  split.
  - apply (proj2 (post_users_500_only_for_role Sample.world0
                    Sample.user_body_role_true 9%N 1700000007000 eq_refl
                    eq_refl)).
    split; [apply truthy_present; reflexivity|].
    split; [apply truthy_present; reflexivity|].
    split; [|exact (proj2 (proj2 sample_lowerable))].
    intros k u Hu [= Hmail]. by apply (sample_no_lee k u Hu).
  - intros H500.
    apply (proj2 (post_users_500_only_for_role Sample.world0 Sample.user_body
                    9%N 1700000007000 eq_refl eq_refl)) in H500.
    destruct H500 as (_ & _ & _ & Hrole).
    exact (Hrole (proj1 sample_lowerable)).
Defined.
